(** * Configuration resolution of the todo API (src/api/src/config/index.ts)

    A shallow embedding of the start-up configuration pipeline.  The
    repository carries the pipeline in several near-identical revisions;
    the two with logic of their own come first, each in a module of its
    own; the third, which hands the settings to a provider package, follows
    in the module [Provider]:

    - [Combined]: [src/src/api/src/config/index.ts], which overlays Key Vault
      secrets and then App Configuration settings on [process.env];
    - [AppConfigRefs]: the revision kept next to
      [cosmos-mongo-account.bicep], which reads App Configuration only and
      dereferences Key Vault references found among the settings.

    [process.env] is a finite map from strings to strings, the Azure SDK
    clients, [JSON.parse], [dotenv] and the [config] package are the fields
    of a record [World], and every call that leaves the module (logger,
    SDK, dotenv, [require]) is recorded, in program order, in a trace.

    A [World] stands for a process whose [config] package loads and defines
    both sections; a package that may fail is a [ConfigPackage], and the
    definitions named [..._from] run the same code over it.  Assignments to
    [process.env] are plain updates of the map, which is what Node does for
    the names and values singled out by [env_name_ok] and [env_value_ok];
    [setenv] says what it does with the others. *)

From Stdlib Require Import String Ascii List Floats.
From stdpp Require Import base option list gmap strings fin_maps.
Import ListNotations.

Set Default Proof Using "Type".

(** ** JavaScript data *)

(** The values [JSON.parse] produces, and [undefined] for a missing
    property.  [JObject] lists the own properties of the parsed object, each
    name once (of a name repeated in the text [JSON.parse] keeps the last). *)
#[local] Unset Elimination Schemes.
Inductive JSValue : Type :=
| JUndefined
| JNull
| JBool (b : bool)
| JNumber (f : float)
| JString (s : string)
| JArray (items : list JSValue)
| JObject (props : list (string * JSValue)).
#[local] Set Elimination Schemes.

(** ToBoolean. *)
Definition truthy (v : JSValue) : bool :=
  match v with
  | JUndefined | JNull => false
  | JBool b => b
  | JNumber f => negb (PrimFloat.eqb f 0%float || PrimFloat.is_nan f)
  | JString s => negb (bool_decide (s = EmptyString))
  | JArray _ | JObject _ => true
  end.

(** [typeof v === "string"]. *)
Definition is_string (v : JSValue) : bool :=
  match v with JString _ => true | _ => false end.

(** Own property of an object built by [JSON.parse]. *)
Fixpoint own_property (p : string) (props : list (string * JSValue)) : JSValue :=
  match props with
  | [] => JUndefined
  | (q, v) :: rest => if bool_decide (q = p) then v else own_property p rest
  end.

(** A thrown value: an [Error] (or subclass) with its [name] and [message]. *)
Record JSError : Type := mkJSError { err_name : string; err_message : string }.

(** [new Error(msg)]. *)
Definition Error (msg : string) : JSError := mkJSError "Error" msg.
Definition TypeError (msg : string) : JSError := mkJSError "TypeError" msg.

(** [`${err}`], that is [Error.prototype.toString]. *)
Definition err_toString (e : JSError) : string :=
  if bool_decide (err_name e = EmptyString) then err_message e
  else if bool_decide (err_message e = EmptyString) then err_name e
  else err_name e +:+ ": " +:+ err_message e.

(** [v.uri] for a value [v] that came out of [JSON.parse]: reading a
    property of [null] throws, primitives and arrays have no such
    property. *)
Definition get_uri (v : JSValue) : JSError + JSValue :=
  match v with
  | JNull => inl (TypeError "Cannot read properties of null (reading 'uri')")
  | JUndefined => inl (TypeError "Cannot read properties of undefined (reading 'uri')")
  | JObject props => inr (own_property "uri" props)
  | _ => inr JUndefined
  end.

(** [`${x}`] for [x : string | undefined]. *)
Definition template (x : option string) : string := default "undefined" x.

(** [!x] is false, for [x : string | undefined]. *)
Definition nonempty (x : option string) : bool :=
  match x with
  | Some s => negb (bool_decide (s = EmptyString))
  | None => false
  end.

(** [s.replace(/c/g, d)] for single characters [c] and [d]. *)
Fixpoint replace_all (c d : ascii) (s : string) : string :=
  match s with
  | EmptyString => EmptyString
  | String a rest => String (if Ascii.eqb a c then d else a) (replace_all c d rest)
  end.

(** [s.split(c)] for a single character [c]. *)
Fixpoint split (c : ascii) (s : string) : list string :=
  match s with
  | EmptyString => [EmptyString]
  | String a rest =>
      if Ascii.eqb a c then EmptyString :: split c rest
      else match split c rest with
           | h :: t => String a h :: t
           | [] => [String a EmptyString]
           end
  end.

(** ** SDK data *)

Record ConfigurationSetting : Type :=
  { setting_key : string; setting_value : option string }.

Record SecretProperties : Type := { properties_name : string }.

Record KeyVaultSecret : Type :=
  { secret_name : string; secret_value : option string }.

Record DefaultAzureCredential : Type :=
  { managedIdentityClientId : option string }.

Record DatabaseConfig : Type :=
  { db_connectionString : string; databaseName : string }.

Record ObservabilityConfig : Type :=
  { obs_connectionString : string; roleName : string }.

Record AppConfig : Type :=
  { observability : ObservabilityConfig; database : DatabaseConfig }.

(** ** Effects *)

(** How a statement ends. *)
Inductive Completion (A : Type) : Type :=
| Normal (a : A)
| Throw (e : JSError).
Arguments Normal {A} a.
Arguments Throw {A} e.

(** A paged listing consumed by [for await]: the items in order, then the
    end of the listing or the error a page fetch raised. *)
Inductive AsyncIter (A : Type) : Type :=
| Done
| Yield (a : A) (rest : AsyncIter A)
| Fail (e : JSError).
Arguments Done {A}.
Arguments Yield {A} a rest.
Arguments Fail {A} e.

(** The listing that yields [l] and goes on as [rest]. *)
Definition yields {A : Type} (l : list A) (rest : AsyncIter A) : AsyncIter A :=
  fold_right Yield rest l.

Inductive Level : Type := Info | Warn | Err.

(** Calls that leave the module. *)
Inductive Event : Type :=
| Log (lvl : Level) (msg : string)
| DotenvConfig
| ListPropertiesOfSecrets (vaultUrl : string)
| GetSecret (vaultUrl : string) (name : option string)
| ListConfigurationSettings (endpoint : string)
| RequireConfig.

(** What the module does not define. *)
Record World : Type :=
  { JSON_parse : string -> Completion JSValue;
    listPropertiesOfSecrets :
      string -> DefaultAzureCredential -> AsyncIter SecretProperties;
    getSecret :
      string -> DefaultAzureCredential -> option string -> Completion KeyVaultSecret;
    listConfigurationSettings :
      string -> DefaultAzureCredential -> AsyncIter ConfigurationSetting;
    (* the parsed content of the local .env file, empty when there is none *)
    dotenv_parsed : gmap string string;
    (* config.get("database") and config.get("observability"), as the config
       package binds them to the environment it is loaded in *)
    config_get_database : gmap string string -> DatabaseConfig;
    config_get_observability : gmap string string -> ObservabilityConfig }.

Record State : Type := mkState { env : gmap string string; trace : list Event }.

Definition M (A : Type) : Type := State -> Completion A * State.

Definition ret {A : Type} (a : A) : M A := fun st => (Normal a, st).

Definition bind {A B : Type} (m : M A) (k : A -> M B) : M B :=
  fun st =>
    match m st with
    | (Normal a, st') => k a st'
    | (Throw e, st') => (Throw e, st')
    end.

Definition throw {A : Type} (e : JSError) : M A := fun st => (Throw e, st).

Definition try_catch {A : Type} (m : M A) (handler : JSError -> M A) : M A :=
  fun st =>
    match m st with
    | (Normal a, st') => (Normal a, st')
    | (Throw e, st') => handler e st'
    end.

Declare Scope js_scope.
Delimit Scope js_scope with js.
Notation "x <- m ;; k" := (bind m (fun x => k))
  (at level 100, m at next level, right associativity) : js_scope.
Notation "m ;; k" := (bind m (fun _ => k))
  (at level 100, right associativity) : js_scope.
Local Open Scope js_scope.

Definition emit (ev : Event) : M unit :=
  fun st => (Normal tt, mkState (env st) (trace st ++ [ev])).

Definition logger_info (msg : string) : M unit := emit (Log Info msg).
Definition logger_warn (msg : string) : M unit := emit (Log Warn msg).
Definition logger_error (msg : string) : M unit := emit (Log Err msg).

(** [process.env[k]]. *)
Definition read_env (k : string) : M (option string) :=
  fun st => (Normal (env st !! k), st).

(** [process.env[k] = v]: the assigned value is converted to a string.
    The assignment is modelled for the names and values the environment of
    a process can hold as they are written ([env_name_ok], [env_value_ok]
    below); what Node does with the others is [setenv] below, and the
    properties of keys that come from App Configuration are stated for the
    former. *)
Definition assign_env (k : string) (v : option string) : M unit :=
  fun st => (Normal tt, mkState (<[k := template v]> (env st)) (trace st)).

(** [await] of an SDK promise. *)
Definition await {A : Type} (c : Completion A) : M A :=
  fun st => (c, st).

(** [for await (const a of it) body]. *)
Fixpoint for_await {A : Type} (it : AsyncIter A) (body : A -> M unit) : M unit :=
  match it with
  | Done => ret tt
  | Yield a rest => body a ;; for_await rest body
  | Fail e => throw e
  end.

(** [dotenv.config()]: keys of the file that the process does not define
    yet are added; nothing is overwritten, nothing is thrown. *)
Definition dotenv_config (w : World) : M unit :=
  fun st => (Normal tt, mkState (env st ∪ dotenv_parsed w) (trace st ++ [DotenvConfig])).

(** [new DefaultAzureCredential({ managedIdentityClientId: clientId })] for
    the [clientId] read from an environment. *)
Definition credential_of (e : gmap string string) : DefaultAzureCredential :=
  {| managedIdentityClientId := e !! "AZURE_CLIENT_ID" |}.

(** A sequence of assignments [process.env[k] = v], applied in order. *)
Definition write (e : gmap string string) (kv : string * string) : gmap string string :=
  <[kv.1 := kv.2]> e.

Definition apply_writes (e : gmap string string) (ws : list (string * string)) :
    gmap string string :=
  foldl write e ws.

(** Calls on the secret store, on the config store, on either. *)
Definition secret_store_event (ev : Event) : bool :=
  match ev with
  | ListPropertiesOfSecrets _ | GetSecret _ _ => true
  | _ => false
  end.

Definition config_store_event (ev : Event) : bool :=
  match ev with
  | ListConfigurationSettings _ => true
  | _ => false
  end.

Definition remote_event (ev : Event) : bool :=
  secret_store_event ev || config_store_event ev.

(** [msg] contains [word]. *)
Definition mentions (msg word : string) : bool :=
  match String.index 0 word msg with
  | Some _ => true
  | None => false
  end.

(** The state a computation starts from when only its own effects matter. *)
Definition blank : State := mkState ∅ [].

(** ** The typed extractor

    Lines 19 to 43 of [getConfig] in [index.ts] (the same text closes
    [getConfig] in the other revision): the [config] package is loaded, the
    two sections are read, a warning is logged for each empty connection
    string, and the result is assembled. *)
Definition extractConfig (w : World) : M AppConfig :=
  emit RequireConfig ;;
  fun st =>
    let databaseConfig := config_get_database w (env st) in
    let observabilityConfig := config_get_observability w (env st) in
    ((if bool_decide (db_connectionString databaseConfig = EmptyString)
      then logger_warn "database.connectionString is required but has not been set. Ensure environment variable 'AZURE_COSMOS_CONNECTION_STRING' has been set"
      else ret tt) ;;
     (if bool_decide (obs_connectionString observabilityConfig = EmptyString)
      then logger_warn "observability.connectionString is required but has not been set. Ensure environment variable 'APPLICATIONINSIGHTS_CONNECTION_STRING' has been set"
      else ret tt) ;;
     ret {| observability :=
              {| obs_connectionString := obs_connectionString observabilityConfig;
                 roleName := roleName observabilityConfig |};
            database :=
              {| db_connectionString := db_connectionString databaseConfig;
                 databaseName := databaseName databaseConfig |} |}) st.

(** The [config] package is not part of the module, and neither are the
    files it reads (the [config] directory of the process).  A [World]
    stands for a process in which the package loads and its files define
    both sections, which is what [extractConfig] above relies on.  In
    general [require("config")] raises when the files cannot be read, and
    [config.get(name)] raises when they define no section [name]; the three
    answers below are those of the first load of the package in a process
    whose environment is the argument. *)
Record ConfigPackage : Type :=
  { require_config : gmap string string -> Completion unit;
    get_database : gmap string string -> Completion DatabaseConfig;
    get_observability : gmap string string -> Completion ObservabilityConfig }.

(** The package of a world. *)
Definition package_of (w : World) : ConfigPackage :=
  {| require_config := fun _ => Normal tt;
     get_database := fun e => Normal (config_get_database w e);
     get_observability := fun e => Normal (config_get_observability w e) |}.

(** Lines 19 to 43 of [getConfig] over a package that may fail: nothing
    catches what [require] or [config.get] raises. *)
Definition extractConfig_from (pkg : ConfigPackage) : M AppConfig :=
  emit RequireConfig ;;
  e <- (fun st => (Normal (env st), st)) ;;
  await (require_config pkg e) ;;
  databaseConfig <- await (get_database pkg e) ;;
  observabilityConfig <- await (get_observability pkg e) ;;
  (if bool_decide (db_connectionString databaseConfig = EmptyString)
   then logger_warn "database.connectionString is required but has not been set. Ensure environment variable 'AZURE_COSMOS_CONNECTION_STRING' has been set"
   else ret tt) ;;
  (if bool_decide (obs_connectionString observabilityConfig = EmptyString)
   then logger_warn "observability.connectionString is required but has not been set. Ensure environment variable 'APPLICATIONINSIGHTS_CONNECTION_STRING' has been set"
   else ret tt) ;;
  ret {| observability :=
           {| obs_connectionString := obs_connectionString observabilityConfig;
              roleName := roleName observabilityConfig |};
         database :=
           {| db_connectionString := db_connectionString databaseConfig;
              databaseName := databaseName databaseConfig |} |}.

(** ** [src/src/api/src/config/index.ts] *)
Module Combined.
Section WithWorld.
Variable w : World.

(** The body of the loop over [secretClient.listPropertiesOfSecrets()]. *)
Definition keyVault_body (keyVaultEndpoint : string) (credential : DefaultAzureCredential)
    (secretProperties : SecretProperties) : M unit :=
  emit (GetSecret keyVaultEndpoint (Some (properties_name secretProperties))) ;;
  secret <- await (getSecret w keyVaultEndpoint credential
                     (Some (properties_name secretProperties))) ;;
  let keyName := replace_all "-" "_" (secret_name secret) in
  assign_env keyName (secret_value secret).

Definition populateEnvironmentFromKeyVault : M unit :=
  clientId <- read_env "AZURE_CLIENT_ID" ;;
  endpoint <- read_env "AZURE_KEY_VAULT_ENDPOINT" ;;
  let keyVaultEndpoint := default EmptyString endpoint in
  if bool_decide (keyVaultEndpoint = EmptyString) then
    logger_warn "AZURE_KEY_VAULT_ENDPOINT has not been set. Configuration will be loaded from current environment."
  else
    try_catch
      (logger_info "Populating environment from Azure KeyVault..." ;;
       let credential := {| managedIdentityClientId := clientId |} in
       emit (ListPropertiesOfSecrets keyVaultEndpoint) ;;
       for_await (listPropertiesOfSecrets w keyVaultEndpoint credential)
         (keyVault_body keyVaultEndpoint credential))
      (fun err =>
         logger_error ("Error authenticating with Azure KeyVault.  Ensure your managed identity or service principal has GET/LIST permissions. Error: " +:+ err_toString err) ;;
         throw err).

(** The body of the loop over [appConfigClient.listConfigurationSettings()]. *)
Definition appConfig_body (setting : ConfigurationSetting) : M unit :=
  assign_env (setting_key setting) (setting_value setting).

Definition populateEnvironmentFromAppConfig : M unit :=
  clientId <- read_env "AZURE_CLIENT_ID" ;;
  endpoint <- read_env "AZURE_APPCONFIGURATION_ENDPOINT" ;;
  let azureAppConfigEndpoint := default EmptyString endpoint in
  if bool_decide (azureAppConfigEndpoint = EmptyString) then
    logger_warn "AZURE_APPCONFIGURATION_ENDPOINT has not been set. Configuration will be loaded from current environment."
  else
    try_catch
      (logger_info "Populating environment from Azure AppConfiguration..." ;;
       let credential := {| managedIdentityClientId := clientId |} in
       emit (ListConfigurationSettings azureAppConfigEndpoint) ;;
       for_await (listConfigurationSettings w azureAppConfigEndpoint credential)
         appConfig_body)
      (fun err =>
         logger_error ("Error authenticating with Azure App Configuration. Ensure your managed identity or service principal has GET/LIST permissions. Error: " +:+ err_toString err) ;;
         throw err).

(** Lines 10 to 13 of [getConfig]: the local [.env] file is read unless
    [NODE_ENV] is [production]. *)
Definition loadLocal : M unit :=
  node_env <- read_env "NODE_ENV" ;;
  if bool_decide (node_env = Some "production") then ret tt else dotenv_config w.

Definition getConfig : M AppConfig :=
  loadLocal ;;
  populateEnvironmentFromKeyVault ;;
  populateEnvironmentFromAppConfig ;;
  extractConfig w.

(** The assignment a retrieved secret gives rise to (lines 70 and 71). *)
Definition secret_write (secret : KeyVaultSecret) : string * string :=
  (replace_all "-" "_" (secret_name secret), template (secret_value secret)).

(** The assignment a setting gives rise to (line 102). *)
Definition setting_write (setting : ConfigurationSetting) : string * string :=
  (setting_key setting, template (setting_value setting)).

(** One turn of the secret loop, as the assignments it makes or the error
    it raises. *)
Definition keyVault_writes (keyVaultEndpoint : string) (credential : DefaultAzureCredential)
    (secretProperties : SecretProperties) : Completion (list (string * string)) :=
  match getSecret w keyVaultEndpoint credential (Some (properties_name secretProperties)) with
  | Normal secret => Normal [secret_write secret]
  | Throw e => Throw e
  end.

End WithWorld.
End Combined.

(** [getConfig] of [index.ts] over a package that may fail. *)
Definition combined_getConfig_from (pkg : ConfigPackage) (w : World) : M AppConfig :=
  Combined.loadLocal w ;;
  Combined.populateEnvironmentFromKeyVault w ;;
  Combined.populateEnvironmentFromAppConfig w ;;
  extractConfig_from pkg.

(** ** The revision with Key Vault references *)
Module AppConfigRefs.
Section WithWorld.
Variable w : World.

(** The truth value of what [isKeyVaultReference] returns. *)
Definition isKeyVaultReference (setting : ConfigurationSetting) : bool :=
  match setting_value setting with
  | None => false
  | Some v =>
      if bool_decide (v = EmptyString) then false
      else
        match JSON_parse w v with
        | Normal valueObject =>
            if truthy valueObject then
              match get_uri valueObject with
              | inr uri => is_string uri
              | inl _ => false
              end
            else false
        | Throw _ => false
        end
  end.

Definition getSecretFromKeyVault (setting : ConfigurationSetting)
    (credential : DefaultAzureCredential) : M (option string) :=
  match setting_value setting with
  | None =>
      throw (Error ("AppConfiguration setting " +:+ setting_key setting +:+ " does not have a value"))
  | Some v =>
      if bool_decide (v = EmptyString) then
        throw (Error ("AppConfiguration setting " +:+ setting_key setting +:+ " does not have a value"))
      else
        secretUriObject <- await (JSON_parse w v) ;;
        match get_uri secretUriObject with
        | inl e => throw e
        | inr secretUri =>
            if negb (truthy secretUri) then
              throw (Error ("AppConfiguration setting " +:+ setting_key setting +:+ " does not contain a valid Key Vault reference"))
            else
              match secretUri with
              | JString uri =>
                  let secretUriParts := split "/" uri in
                  let keyVaultName := secretUriParts !! 2 in
                  let secretName := secretUriParts !! 4 in
                  let endpointUrl := "https://" +:+ template keyVaultName in
                  emit (GetSecret endpointUrl secretName) ;;
                  secret <- await (getSecret w endpointUrl credential secretName) ;;
                  ret (secret_value secret)
              | _ => throw (TypeError "secretUri.split is not a function")
              end
        end
  end.

(** The body of the loop over [appConfigClient.listConfigurationSettings()]. *)
Definition appConfig_body (credential : DefaultAzureCredential)
    (setting : ConfigurationSetting) : M unit :=
  if nonempty (setting_value setting) && isKeyVaultReference setting then
    secretValue <- getSecretFromKeyVault setting credential ;;
    assign_env (setting_key setting) secretValue
  else if nonempty (setting_value setting) then
    assign_env (setting_key setting) (setting_value setting)
  else ret tt.

Definition populateEnvironmentFromAppConfig : M unit :=
  clientId <- read_env "AZURE_CLIENT_ID" ;;
  endpoint <- read_env "AZURE_APPCONFIGURATION_ENDPOINT" ;;
  let azureAppConfigEndpoint := default EmptyString endpoint in
  if bool_decide (azureAppConfigEndpoint = EmptyString) then
    logger_warn "AZURE_APPCONFIGURATION_ENDPOINT has not been set. Configuration will be loaded from current environment."
  else
    try_catch
      (logger_info "Populating environment from Azure AppConfiguration..." ;;
       let credential := {| managedIdentityClientId := clientId |} in
       emit (ListConfigurationSettings azureAppConfigEndpoint) ;;
       for_await (listConfigurationSettings w azureAppConfigEndpoint credential)
         (appConfig_body credential))
      (fun err =>
         logger_error ("Error authenticating with Azure App Configuration or Keyvault. Ensure your managed identity or service principal has GET/LIST permissions. Error: " +:+ err_toString err) ;;
         throw err).

Definition getConfig : M AppConfig :=
  node_env <- read_env "NODE_ENV" ;;
  logger_info ("Loading configuration from " +:+ template node_env +:+ " environment...") ;;
  node_env <- read_env "NODE_ENV" ;;
  (if bool_decide (node_env = Some "production") then populateEnvironmentFromAppConfig
   else dotenv_config w) ;;
  extractConfig w.

(** A parsed value is an object with a string [uri] property. *)
Definition has_string_uri (v : JSValue) : bool :=
  match v with
  | JObject props => is_string (own_property "uri" props)
  | _ => false
  end.

(** One turn of the settings loop run on its own: how it ends, what it
    assigns and which calls it makes. *)
Definition turn (credential : DefaultAzureCredential) (setting : ConfigurationSetting) :
    Completion unit * State :=
  appConfig_body credential setting blank.

(** One turn of the settings loop, as the assignments it makes or the
    error it raises. *)
Definition setting_writes (credential : DefaultAzureCredential)
    (setting : ConfigurationSetting) : Completion (list (string * string)) :=
  match turn credential setting with
  | (Normal _, st) => Normal (map_to_list (env st))
  | (Throw e, _) => Throw e
  end.

Definition setting_events (credential : DefaultAzureCredential)
    (setting : ConfigurationSetting) : list Event :=
  trace (snd (turn credential setting)).

End WithWorld.
End AppConfigRefs.

(** [body] does to the state what [out] and [evs] say: it makes the
    assignments and the calls of the turn, or raises after the calls. *)
Definition performs {A : Type} (body : A -> M unit)
    (out : A -> Completion (list (string * string))) (evs : A -> list Event) : Prop :=
  forall a st,
    body a st =
      match out a with
      | Normal ws => (Normal tt, mkState (apply_writes (env st) ws) (trace st ++ evs a))
      | Throw e => (Throw e, mkState (env st) (trace st ++ evs a))
      end.

(** The [catch] blocks of the population steps: the error is logged with
    a hint and raised again. *)
Definition rethrow_logged (hint : string) (r : Completion unit * State) :
    Completion unit * State :=
  match r with
  | (Normal a, st) => (Normal a, st)
  | (Throw e, st) =>
      (Throw e, mkState (env st) (trace st ++ [Log Err (hint +:+ err_toString e)]))
  end.

Definition keyVault_hint : string :=
  "Error authenticating with Azure KeyVault.  Ensure your managed identity or service principal has GET/LIST permissions. Error: ".

Definition appConfig_hint : string :=
  "Error authenticating with Azure App Configuration. Ensure your managed identity or service principal has GET/LIST permissions. Error: ".

Definition appConfig_or_keyVault_hint : string :=
  "Error authenticating with Azure App Configuration or Keyvault. Ensure your managed identity or service principal has GET/LIST permissions. Error: ".

Definition database_warning : string :=
  "database.connectionString is required but has not been set. Ensure environment variable 'AZURE_COSMOS_CONNECTION_STRING' has been set".

Definition observability_warning : string :=
  "observability.connectionString is required but has not been set. Ensure environment variable 'APPLICATIONINSIGHTS_CONNECTION_STRING' has been set".

(** The first line [getConfig] logs in the revision with references. *)
Definition loading_message (e : gmap string string) : string :=
  "Loading configuration from " +:+ template (e !! "NODE_ENV") +:+ " environment...".

(** The warnings of the extractor for the two sections it read. *)
Definition extract_warnings (db : DatabaseConfig) (obs : ObservabilityConfig) : list Event :=
  (if bool_decide (db_connectionString db = EmptyString)
   then [Log Warn database_warning] else []) ++
  (if bool_decide (obs_connectionString obs = EmptyString)
   then [Log Warn observability_warning] else []).

Definition is_log (ev : Event) : bool :=
  match ev with Log _ _ => true | _ => false end.

(** Every call [m] makes satisfies [P]. *)
Definition adds {A : Type} (P : Event -> Prop) (m : M A) : Prop :=
  forall st, exists es, trace (snd (m st)) = trace st ++ es /\ Forall P es.

(** ** A sample deployment

    One vault that can be listed, one whose listing is refused after the
    first page, one store of plain settings, one store with a Key Vault
    reference, one with a reference without a URI, one whose listing is
    refused after the first setting, and one whose second setting refers to
    a secret the caller may not read. *)

Definition quote : string := String "034"%char EmptyString.

(** The text [{"uri":"..."}] of a Key Vault reference. *)
Definition reference_text (uri : string) : string :=
  "{" +:+ quote +:+ "uri" +:+ quote +:+ ":" +:+ quote +:+ uri +:+ quote +:+ "}".

Definition forbidden : JSError :=
  mkJSError "RestError" "Caller is not authorized to perform action on resource.".

(** [JSON.parse] on the texts of the sample: the three references are JSON
    objects, the other texts used below are no JSON at all. *)
Definition sample_JSON_parse (text : string) : Completion JSValue :=
  if bool_decide (text = reference_text "https://myvault.vault.azure.net/secrets/mysecret")
  then Normal (JObject [("uri", JString "https://myvault.vault.azure.net/secrets/mysecret")])
  else if bool_decide (text = reference_text "https://locked.vault.azure.net/secrets/mysecret")
  then Normal (JObject [("uri", JString "https://locked.vault.azure.net/secrets/mysecret")])
  else if bool_decide (text = reference_text EmptyString)
  then Normal (JObject [("uri", JString EmptyString)])
  else Throw (mkJSError "SyntaxError" "Unexpected token in JSON").

Definition sample_listPropertiesOfSecrets (vaultUrl : string) (_ : DefaultAzureCredential) :
    AsyncIter SecretProperties :=
  if bool_decide (vaultUrl = "https://kv.vault.azure.net") then
    yields [ {| properties_name := "A-B" |}; {| properties_name := "A_B" |};
             {| properties_name := "My-Secret-Name" |} ] Done
  else if bool_decide (vaultUrl = "https://locked.vault.azure.net") then
    yields [ {| properties_name := "A-B" |} ] (Fail forbidden)
  else Fail forbidden.

Definition sample_getSecret (vaultUrl : string) (_ : DefaultAzureCredential)
    (name : option string) : Completion KeyVaultSecret :=
  if bool_decide (vaultUrl = "https://myvault.vault.azure.net") then
    if bool_decide (name = Some "mysecret")
    then Normal {| secret_name := "mysecret"; secret_value := Some "s3cr3t" |}
    else Throw (mkJSError "RestError" "SecretNotFound")
  else if bool_decide (vaultUrl = "https://locked.vault.azure.net") &&
          negb (bool_decide (name = Some "A-B"))
  then Throw forbidden
  else if bool_decide (name = Some "A-B")
  then Normal {| secret_name := "A-B"; secret_value := Some "first" |}
  else if bool_decide (name = Some "A_B")
  then Normal {| secret_name := "A_B"; secret_value := Some "second" |}
  else if bool_decide (name = Some "My-Secret-Name")
  then Normal {| secret_name := "My-Secret-Name"; secret_value := Some "third" |}
  else Throw (mkJSError "RestError" "SecretNotFound").

Definition sample_listConfigurationSettings (endpoint : string) (_ : DefaultAzureCredential) :
    AsyncIter ConfigurationSetting :=
  if bool_decide (endpoint = "https://plain.azconfig.io") then
    yields [ {| setting_key := "A_B"; setting_value := Some "from-config" |};
             {| setting_key := "EMPTY"; setting_value := Some EmptyString |};
             {| setting_key := "AZURE_COSMOS_CONNECTION_STRING";
                setting_value := Some "mongodb://cosmos" |} ] Done
  else if bool_decide (endpoint = "https://refs.azconfig.io") then
    yields [ {| setting_key := "API_KEY";
                setting_value :=
                  Some (reference_text "https://myvault.vault.azure.net/secrets/mysecret") |};
             {| setting_key := "AZURE_COSMOS_CONNECTION_STRING";
                setting_value := Some "mongodb://cosmos" |} ] Done
  else if bool_decide (endpoint = "https://broken.azconfig.io") then
    yields [ {| setting_key := "API_KEY";
                setting_value := Some (reference_text EmptyString) |} ] Done
  else if bool_decide (endpoint = "https://locked.azconfig.io") then
    yields [ {| setting_key := "GREETING"; setting_value := Some "hello" |} ] (Fail forbidden)
  else if bool_decide (endpoint = "https://denied.azconfig.io") then
    yields [ {| setting_key := "GREETING"; setting_value := Some "hello" |};
             {| setting_key := "API_KEY";
                setting_value :=
                  Some (reference_text "https://locked.vault.azure.net/secrets/mysecret") |};
             {| setting_key := "AZURE_COSMOS_CONNECTION_STRING";
                setting_value := Some "mongodb://cosmos" |} ] Done
  else Fail forbidden.

Definition sample_world : World :=
  {| JSON_parse := sample_JSON_parse;
     listPropertiesOfSecrets := sample_listPropertiesOfSecrets;
     getSecret := sample_getSecret;
     listConfigurationSettings := sample_listConfigurationSettings;
     dotenv_parsed := {[ "LOCAL_ONLY" := "from-file" ]};
     config_get_database := fun e =>
       {| db_connectionString := default EmptyString (e !! "AZURE_COSMOS_CONNECTION_STRING");
          databaseName := default "Todo" (e !! "AZURE_COSMOS_DATABASE_NAME") |};
     config_get_observability := fun e =>
       {| obs_connectionString :=
            default EmptyString (e !! "APPLICATIONINSIGHTS_CONNECTION_STRING");
          roleName := default "API" (e !! "APPLICATIONINSIGHTS_ROLE_NAME") |} |}.

(** A process started with the variables [vars]. *)
Definition started (vars : list (string * string)) : State :=
  mkState (list_to_map vars) [].

(** ** The revision with the configuration provider

    The third revision kept next to [cosmos-mongo-account.bicep]: the
    settings, Key Vault references resolved, come from one call of [load] of
    the provider package, and a plain [for ... of] loop assigns them.  The
    provider is not part of the module: its map of settings is the result
    of [load], in iteration order, over values of a type [Value] with
    JavaScript's conversion to a string. *)

(** [for (const a of l) body]. *)
Fixpoint for_of {A : Type} (l : list A) (body : A -> M unit) : M unit :=
  match l with
  | [] => ret tt
  | a :: rest => body a ;; for_of rest body
  end.

Module Provider.
Section WithWorld.
Variable w : World.
Variable Value : Type.
Variable toString : Value -> string.
Variable load : string -> Completion (list (string * Value)).

(** The body of the loop over the settings. *)
Definition appConfig_body (entry : string * Value) : M unit :=
  let key := entry.1 in
  let value := entry.2 in
  logger_info ("Setting read from app config " +:+ key +:+ "=" +:+ toString value) ;;
  assign_env key (Some (toString value)).

Definition populateEnvironmentFromAppConfig : M unit :=
  clientId <- read_env "AZURE_CLIENT_ID" ;;
  endpoint <- read_env "AZURE_APPCONFIGURATION_ENDPOINT" ;;
  let endpoint := default EmptyString endpoint in
  if bool_decide (endpoint = EmptyString) then
    logger_warn "AZURE_APPCONFIGURATION_ENDPOINT has not been set. Configuration will be loaded from current environment."
  else
    try_catch
      (logger_info "Populating environment from Azure AppConfiguration..." ;;
       settings <- await (load endpoint) ;;
       for_of settings appConfig_body)
      (fun err =>
         logger_error ("Error authenticating with Azure App Configuration or Keyvault. Ensure your managed identity or service principal has GET/LIST permissions. Error: " +:+ err_toString err) ;;
         throw err).

Definition getConfig : M AppConfig :=
  node_env <- read_env "NODE_ENV" ;;
  logger_info ("Loading configuration from " +:+ template node_env +:+ " environment...") ;;
  node_env <- read_env "NODE_ENV" ;;
  (if bool_decide (node_env = Some "production") then populateEnvironmentFromAppConfig
   else dotenv_config w) ;;
  extractConfig w.

(** The assignment and the log line an entry gives rise to. *)
Definition entry_write (entry : string * Value) : string * string :=
  (entry.1, toString entry.2).

Definition entry_log (entry : string * Value) : Event :=
  Log Info ("Setting read from app config " +:+ entry.1 +:+ "=" +:+ toString entry.2).

End WithWorld.
End Provider.

(** [getConfig] of the two revisions kept next to
    [cosmos-mongo-account.bicep], over a package that may fail. *)
Definition refs_getConfig_from (pkg : ConfigPackage) (w : World) : M AppConfig :=
  node_env <- read_env "NODE_ENV" ;;
  logger_info ("Loading configuration from " +:+ template node_env +:+ " environment...") ;;
  node_env <- read_env "NODE_ENV" ;;
  (if bool_decide (node_env = Some "production")
   then AppConfigRefs.populateEnvironmentFromAppConfig w
   else dotenv_config w) ;;
  extractConfig_from pkg.

Definition provider_getConfig_from (pkg : ConfigPackage) (w : World) (Value : Type)
    (toString : Value -> string) (load : string -> Completion (list (string * Value))) :
    M AppConfig :=
  node_env <- read_env "NODE_ENV" ;;
  logger_info ("Loading configuration from " +:+ template node_env +:+ " environment...") ;;
  node_env <- read_env "NODE_ENV" ;;
  (if bool_decide (node_env = Some "production")
   then Provider.populateEnvironmentFromAppConfig Value toString load
   else dotenv_config w) ;;
  extractConfig_from pkg.

(** ** Further notions used in the properties *)

(** [c] occurs in [s]. *)
Fixpoint occurs (c : ascii) (s : string) : bool :=
  match s with
  | EmptyString => false
  | String a rest => Ascii.eqb a c || occurs c rest
  end.

(** [pieces.join(c)] for a single character [c]. *)
Fixpoint join (c : ascii) (pieces : list string) : string :=
  match pieces with
  | [] => EmptyString
  | [p] => p
  | p :: rest => p +:+ String c (join c rest)
  end.

(** The names the environment of a process holds as they are written: not
    empty, without [=] and without NUL; and the values: without NUL. *)
Definition env_name_ok (k : string) : bool :=
  negb (bool_decide (k = EmptyString)) && negb (occurs "=" k) && negb (occurs "000" k).

Definition env_value_ok (v : string) : bool := negb (occurs "000" v).

(** The text up to the first NUL, which is what reaches the C library. *)
Fixpoint until_nul (s : string) : string :=
  match s with
  | EmptyString => EmptyString
  | String a rest => if Ascii.eqb a "000" then EmptyString else String a (until_nul rest)
  end.

(** [process.env[k] = v] as Node carries it out: name and value are cut at
    the first NUL, and an empty name or a name with [=] is refused by the
    system, in which case the assignment is dropped without an error. *)
Definition setenv (e : gmap string string) (kv : string * string) : gmap string string :=
  let name := until_nul kv.1 in
  if bool_decide (name = EmptyString) || occurs "=" name then e
  else <[name := until_nul kv.2]> e.

(** [m] never removes a variable of the environment. *)
Definition keeps_variables {A : Type} (m : M A) : Prop :=
  forall st k, is_Some (env st !! k) -> is_Some (env (snd (m st)) !! k).

Definition is_error_log (ev : Event) : bool :=
  match ev with Log Err _ => true | _ => false end.

(** A provider whose map holds strings, for the sample deployment. *)
Definition sample_load (endpoint : string) : Completion (list (string * string)) :=
  if bool_decide (endpoint = "https://plain.azconfig.io") then
    Normal [("A_B", "from-config"); ("EMPTY", EmptyString);
            ("AZURE_COSMOS_CONNECTION_STRING", "mongodb://cosmos")]
  else Throw forbidden.

(** A second deployment: the local file names a vault, and that vault
    holds the endpoint of the config store as a secret. *)
Definition bootstrap_world : World :=
  {| JSON_parse := sample_JSON_parse;
     listPropertiesOfSecrets := fun vaultUrl credential =>
       if bool_decide (vaultUrl = "https://boot.vault.azure.net") then
         yields [ {| properties_name := "AZURE-APPCONFIGURATION-ENDPOINT" |} ] Done
       else sample_listPropertiesOfSecrets vaultUrl credential;
     getSecret := fun vaultUrl credential name =>
       if bool_decide (vaultUrl = "https://boot.vault.azure.net") then
         if bool_decide (name = Some "AZURE-APPCONFIGURATION-ENDPOINT")
         then Normal {| secret_name := "AZURE-APPCONFIGURATION-ENDPOINT";
                        secret_value := Some "https://plain.azconfig.io" |}
         else Throw (mkJSError "RestError" "SecretNotFound")
       else sample_getSecret vaultUrl credential name;
     listConfigurationSettings := sample_listConfigurationSettings;
     dotenv_parsed := {[ "AZURE_KEY_VAULT_ENDPOINT" := "https://boot.vault.azure.net" ]};
     config_get_database := config_get_database sample_world;
     config_get_observability := config_get_observability sample_world |}.

(** A third deployment: [JSON.parse] also knows the reference texts of the
    URIs [uris] (which hold no quote, backslash or control character). *)
Fixpoint parse_reference_among (uris : list string) (text : string) : option string :=
  match uris with
  | [] => None
  | uri :: rest =>
      if bool_decide (text = reference_text uri) then Some uri
      else parse_reference_among rest text
  end.

Definition references_world (uris : list string) : World :=
  {| JSON_parse := fun text =>
       match parse_reference_among uris text with
       | Some uri => Normal (JObject [("uri", JString uri)])
       | None => sample_JSON_parse text
       end;
     listPropertiesOfSecrets := sample_listPropertiesOfSecrets;
     getSecret := sample_getSecret;
     listConfigurationSettings := sample_listConfigurationSettings;
     dotenv_parsed := dotenv_parsed sample_world;
     config_get_database := config_get_database sample_world;
     config_get_observability := config_get_observability sample_world |}.

(** A process started where the [config] package finds no file: the
    package loads, and no section is defined. *)
Definition undefined_property (name : string) : JSError :=
  Error ("Configuration property " +:+ quote +:+ name +:+ quote +:+ " is not defined").

Definition no_config_files : ConfigPackage :=
  {| require_config := fun _ => Normal tt;
     get_database := fun _ => Throw (undefined_property "database");
     get_observability := fun _ => Throw (undefined_property "observability") |}.

(** * Properties *)

(** ** Sequencing *)

Lemma bind_normal {A B : Type} (m : M A) (k : A -> M B) st a st' :
  m st = (Normal a, st') -> bind m k st = k a st'.
Proof. intros H. unfold bind. by rewrite H. Qed.

Lemma bind_throw {A B : Type} (m : M A) (k : A -> M B) st e st' :
  m st = (Throw e, st') -> bind m k st = (Throw e, st').
Proof. intros H. unfold bind. by rewrite H. Qed.


(** ** Assignments to [process.env] *)

Lemma apply_writes_app e ws1 ws2 :
  apply_writes e (ws1 ++ ws2) = apply_writes (apply_writes e ws1) ws2.
Proof. unfold apply_writes. apply foldl_app. Qed.

Lemma apply_writes_untouched e ws k :
  Forall (fun kv => kv.1 <> k) ws -> apply_writes e ws !! k = e !! k.
Proof.
  intros H. revert e. induction H as [|kv ws Hkv _ IH]; intros e; [done|].
  cbn. unfold apply_writes in IH. rewrite IH. unfold write.
  by rewrite lookup_insert_ne.
Qed.

(** The last assignment to a key decides its value. *)
Lemma apply_writes_last e pre k v post :
  Forall (fun kv => kv.1 <> k) post ->
  apply_writes e (pre ++ (k, v) :: post) !! k = Some v.
Proof.
  intros H. rewrite apply_writes_app. cbn.
  change (foldl write ?a post) with (apply_writes a post).
  rewrite apply_writes_untouched by done.
  unfold write. cbn. by rewrite lookup_insert_eq.
Qed.

(** ** Loops over a listing *)

Section Loops.
Context {A : Type} (body : A -> M unit)
  (out : A -> Completion (list (string * string))) (evs : A -> list Event).
Hypothesis Hbody : performs body out evs.

(** Turns that end normally pile up their assignments and calls. *)
Lemma for_await_prefix l wss rest st :
  Forall2 (fun a ws => out a = Normal ws) l wss ->
  for_await (yields l rest) body st =
  for_await rest body
    (mkState (apply_writes (env st) (concat wss)) (trace st ++ concat (map evs l))).
Proof using Hbody.
  intros H. revert st. induction H as [|a ws l wss Ha _ IH]; intros st.
  - cbn. rewrite app_nil_r. by destruct st.
  - cbn [yields fold_right for_await].
    erewrite bind_normal; last by rewrite Hbody, Ha.
    fold (yields l rest). rewrite IH. cbn [env trace concat map].
    by rewrite apply_writes_app, <- app_assoc.
Qed.

Lemma for_await_complete l wss st :
  Forall2 (fun a ws => out a = Normal ws) l wss ->
  for_await (yields l Done) body st =
  (Normal tt, mkState (apply_writes (env st) (concat wss)) (trace st ++ concat (map evs l))).
Proof using Hbody. intros H. by rewrite (for_await_prefix _ _ _ _ H). Qed.

End Loops.

(** ** The three loop bodies *)

Lemma keyVault_body_performs w url cred :
  performs (Combined.keyVault_body w url cred) (Combined.keyVault_writes w url cred)
    (fun sp => [GetSecret url (Some (properties_name sp))]).
Proof.
  intros sp st. unfold Combined.keyVault_body, Combined.keyVault_writes.
  unfold bind, emit, await, assign_env. cbn.
  by destruct (getSecret w url cred (Some (properties_name sp))).
Qed.

Lemma combined_appConfig_body_performs :
  performs Combined.appConfig_body (fun s => Normal [Combined.setting_write s])
    (fun _ => []).
Proof.
  intros s st. unfold Combined.appConfig_body, assign_env. cbn.
  by rewrite app_nil_r.
Qed.

(** [getSecretFromKeyVault] neither reads nor writes [process.env]. *)
Lemma getSecretFromKeyVault_frame w s cred st :
  AppConfigRefs.getSecretFromKeyVault w s cred st =
  (fst (AppConfigRefs.getSecretFromKeyVault w s cred blank),
   mkState (env st)
     (trace st ++ trace (snd (AppConfigRefs.getSecretFromKeyVault w s cred blank)))).
Proof.
  unfold AppConfigRefs.getSecretFromKeyVault, bind, throw, await, emit, ret.
  destruct st as [e t].
  repeat (case_match; simplify_eq/=; rewrite ?app_nil_r; try done).
Qed.

Lemma getSecretFromKeyVault_env w s cred st :
  env (snd (AppConfigRefs.getSecretFromKeyVault w s cred st)) = env st.
Proof. by rewrite getSecretFromKeyVault_frame. Qed.

Lemma refs_appConfig_body_performs w cred :
  performs (AppConfigRefs.appConfig_body w cred) (AppConfigRefs.setting_writes w cred)
    (AppConfigRefs.setting_events w cred).
Proof.
  intros s st.
  unfold AppConfigRefs.setting_writes, AppConfigRefs.setting_events, AppConfigRefs.turn.
  unfold AppConfigRefs.appConfig_body.
  destruct (nonempty (setting_value s) && AppConfigRefs.isKeyVaultReference w s).
  - unfold bind. rewrite (getSecretFromKeyVault_frame w s cred st).
    pose proof (getSecretFromKeyVault_env w s cred blank) as Henv.
    destruct (AppConfigRefs.getSecretFromKeyVault w s cred blank) as [[x|e] d] eqn:Hd;
      cbn in *; [|done].
    unfold assign_env. cbn. rewrite Henv. cbn.
    rewrite insert_empty, map_to_list_singleton. done.
  - destruct (nonempty (setting_value s)).
    + unfold assign_env. cbn.
      rewrite insert_empty, map_to_list_singleton, app_nil_r. done.
    + cbn. rewrite map_to_list_empty, app_nil_r. by destruct st.
Qed.

(** ** The population steps *)

Lemma endpoint_set (e : gmap string string) (k url : string) :
  e !! k = Some url -> url <> EmptyString ->
  default EmptyString (e !! k) = url /\
  bool_decide (default EmptyString (e !! k) = EmptyString) = false.
Proof. intros -> Hne. cbn. split; [done|]. by apply bool_decide_eq_false. Qed.

Lemma populateEnvironmentFromKeyVault_set w st url :
  env st !! "AZURE_KEY_VAULT_ENDPOINT" = Some url -> url <> EmptyString ->
  Combined.populateEnvironmentFromKeyVault w st =
  rethrow_logged keyVault_hint
    (for_await (listPropertiesOfSecrets w url (credential_of (env st)))
       (Combined.keyVault_body w url (credential_of (env st)))
       (mkState (env st)
          (trace st ++ [Log Info "Populating environment from Azure KeyVault...";
                        ListPropertiesOfSecrets url]))).
Proof.
  intros Hurl Hne. destruct (endpoint_set _ _ _ Hurl Hne) as [Hd Hb].
  unfold Combined.populateEnvironmentFromKeyVault, bind, read_env.
  cbn beta iota zeta. rewrite Hb, Hd.
  unfold try_catch, bind, logger_info, logger_error, emit, throw, rethrow_logged.
  cbn [env trace]. rewrite <- app_assoc. cbn [app].
  fold (credential_of (env st)).
  by destruct (for_await _ _ _) as [[[]|e] st'].
Qed.

Lemma populateEnvironmentFromKeyVault_unset w st :
  default EmptyString (env st !! "AZURE_KEY_VAULT_ENDPOINT") = EmptyString ->
  Combined.populateEnvironmentFromKeyVault w st =
  (Normal tt,
   mkState (env st)
     (trace st ++ [Log Warn "AZURE_KEY_VAULT_ENDPOINT has not been set. Configuration will be loaded from current environment."])).
Proof.
  intros Hd.
  unfold Combined.populateEnvironmentFromKeyVault, bind, read_env.
  cbn beta iota zeta. by rewrite Hd.
Qed.

Lemma combined_populateEnvironmentFromAppConfig_set w st url :
  env st !! "AZURE_APPCONFIGURATION_ENDPOINT" = Some url -> url <> EmptyString ->
  Combined.populateEnvironmentFromAppConfig w st =
  rethrow_logged appConfig_hint
    (for_await (listConfigurationSettings w url (credential_of (env st)))
       Combined.appConfig_body
       (mkState (env st)
          (trace st ++ [Log Info "Populating environment from Azure AppConfiguration...";
                        ListConfigurationSettings url]))).
Proof.
  intros Hurl Hne. destruct (endpoint_set _ _ _ Hurl Hne) as [Hd Hb].
  unfold Combined.populateEnvironmentFromAppConfig, bind, read_env.
  cbn beta iota zeta. rewrite Hb, Hd.
  unfold try_catch, bind, logger_info, logger_error, emit, throw, rethrow_logged.
  cbn [env trace]. rewrite <- app_assoc. cbn [app].
  fold (credential_of (env st)).
  by destruct (for_await _ _ _) as [[[]|e] st'].
Qed.

Lemma combined_populateEnvironmentFromAppConfig_unset w st :
  default EmptyString (env st !! "AZURE_APPCONFIGURATION_ENDPOINT") = EmptyString ->
  Combined.populateEnvironmentFromAppConfig w st =
  (Normal tt,
   mkState (env st)
     (trace st ++ [Log Warn "AZURE_APPCONFIGURATION_ENDPOINT has not been set. Configuration will be loaded from current environment."])).
Proof.
  intros Hd.
  unfold Combined.populateEnvironmentFromAppConfig, bind, read_env.
  cbn beta iota zeta. by rewrite Hd.
Qed.

Lemma refs_populateEnvironmentFromAppConfig_set w st url :
  env st !! "AZURE_APPCONFIGURATION_ENDPOINT" = Some url -> url <> EmptyString ->
  AppConfigRefs.populateEnvironmentFromAppConfig w st =
  rethrow_logged appConfig_or_keyVault_hint
    (for_await (listConfigurationSettings w url (credential_of (env st)))
       (AppConfigRefs.appConfig_body w (credential_of (env st)))
       (mkState (env st)
          (trace st ++ [Log Info "Populating environment from Azure AppConfiguration...";
                        ListConfigurationSettings url]))).
Proof.
  intros Hurl Hne. destruct (endpoint_set _ _ _ Hurl Hne) as [Hd Hb].
  unfold AppConfigRefs.populateEnvironmentFromAppConfig, bind, read_env.
  cbn beta iota zeta. rewrite Hb, Hd.
  unfold try_catch, bind, logger_info, logger_error, emit, throw, rethrow_logged.
  cbn [env trace]. rewrite <- app_assoc. cbn [app].
  fold (credential_of (env st)).
  by destruct (for_await _ _ _) as [[[]|e] st'].
Qed.

Lemma refs_populateEnvironmentFromAppConfig_unset w st :
  default EmptyString (env st !! "AZURE_APPCONFIGURATION_ENDPOINT") = EmptyString ->
  AppConfigRefs.populateEnvironmentFromAppConfig w st =
  (Normal tt,
   mkState (env st)
     (trace st ++ [Log Warn "AZURE_APPCONFIGURATION_ENDPOINT has not been set. Configuration will be loaded from current environment."])).
Proof.
  intros Hd.
  unfold AppConfigRefs.populateEnvironmentFromAppConfig, bind, read_env.
  cbn beta iota zeta. by rewrite Hd.
Qed.

(** ** The extractor *)

Lemma extractConfig_run w st :
  extractConfig w st =
  (Normal {| observability := config_get_observability w (env st);
             database := config_get_database w (env st) |},
   mkState (env st)
     (trace st ++ RequireConfig ::
        extract_warnings (config_get_database w (env st))
          (config_get_observability w (env st)))).
Proof.
  unfold extractConfig, extract_warnings, bind, emit, logger_warn, emit, ret.
  cbn [env trace].
  destruct (config_get_database w (env st)) as [dc dn].
  destruct (config_get_observability w (env st)) as [oc on].
  cbn [db_connectionString obs_connectionString databaseName roleName].
  unfold database_warning, observability_warning.
  do 2 case_bool_decide; cbn [env trace app];
    rewrite <- ?app_assoc; cbn [app]; by rewrite ?app_nil_r.
Qed.

(** ** Which calls a computation makes *)

Section Adds.
Context (P : Event -> Prop).

Lemma adds_ret {A : Type} (a : A) : adds P (ret a).
Proof. intros st. exists []. by rewrite app_nil_r. Qed.

Lemma adds_throw {A : Type} e : adds P (@throw A e).
Proof. intros st. exists []. by rewrite app_nil_r. Qed.

Lemma adds_await {A : Type} (c : Completion A) : adds P (await c).
Proof. intros st. exists []. by rewrite app_nil_r. Qed.

Lemma adds_read_env k : adds P (read_env k).
Proof. intros st. exists []. by rewrite app_nil_r. Qed.

Lemma adds_assign_env k v : adds P (assign_env k v).
Proof. intros st. exists []. cbn. by rewrite app_nil_r. Qed.

Lemma adds_emit ev : P ev -> adds P (emit ev).
Proof. intros H st. exists [ev]. cbn. auto. Qed.

Lemma adds_bind {A B : Type} (m : M A) (k : A -> M B) :
  adds P m -> (forall a, adds P (k a)) -> adds P (bind m k).
Proof.
  intros Hm Hk st. destruct (Hm st) as (es1 & E1 & F1). unfold bind.
  destruct (m st) as [[a|e] st1]; cbn in E1.
  - destruct (Hk a st1) as (es2 & E2 & F2). exists (es1 ++ es2).
    rewrite E2, E1, app_assoc. split; [done|]. by apply Forall_app.
  - by exists es1.
Qed.

Lemma adds_try_catch {A : Type} (m : M A) (h : JSError -> M A) :
  adds P m -> (forall e, adds P (h e)) -> adds P (try_catch m h).
Proof.
  intros Hm Hh st. destruct (Hm st) as (es1 & E1 & F1). unfold try_catch.
  destruct (m st) as [[a|e] st1]; cbn in E1.
  - by exists es1.
  - destruct (Hh e st1) as (es2 & E2 & F2). exists (es1 ++ es2).
    rewrite E2, E1, app_assoc. split; [done|]. by apply Forall_app.
Qed.

Lemma adds_for_await {A : Type} (it : AsyncIter A) (body : A -> M unit) :
  (forall a, adds P (body a)) -> adds P (for_await it body).
Proof.
  intros Hb. induction it as [|a rest IH|e]; cbn [for_await].
  - apply adds_ret.
  - apply adds_bind; [apply Hb | intros _; apply IH].
  - apply adds_throw.
Qed.

Lemma adds_extractConfig w :
  P RequireConfig -> (forall msg, P (Log Warn msg)) -> adds P (extractConfig w).
Proof.
  intros H1 H2 st. rewrite extractConfig_run. cbn [snd trace].
  eexists. split; [done|]. constructor; [done|]. unfold extract_warnings.
  apply Forall_app. split; case_bool_decide; auto.
Qed.

End Adds.

Lemma adds_weaken {A : Type} (P Q : Event -> Prop) (m : M A) :
  (forall ev, P ev -> Q ev) -> adds P m -> adds Q m.
Proof.
  intros HPQ Hm st. destruct (Hm st) as (es & E & F). exists es.
  split; [done|]. eapply Forall_impl; eauto.
Qed.

Ltac adds_step :=
  first
    [ apply adds_ret | apply adds_throw | apply adds_await | apply adds_read_env
    | apply adds_assign_env | apply adds_emit; done
    | apply adds_bind; [|intros ?] | apply adds_try_catch; [|intros ?]
    | apply adds_for_await; intros ? ].

Lemma combined_populateEnvironmentFromKeyVault_adds w :
  adds (fun ev => is_log ev || secret_store_event ev = true)
    (Combined.populateEnvironmentFromKeyVault w).
Proof.
  unfold Combined.populateEnvironmentFromKeyVault, Combined.keyVault_body,
    logger_info, logger_warn, logger_error.
  do 2 (apply adds_bind; [apply adds_read_env | intros ?]).
  cbn zeta. case_bool_decide; repeat adds_step.
Qed.

Lemma combined_populateEnvironmentFromAppConfig_adds w :
  adds (fun ev => is_log ev || config_store_event ev = true)
    (Combined.populateEnvironmentFromAppConfig w).
Proof.
  unfold Combined.populateEnvironmentFromAppConfig, Combined.appConfig_body,
    logger_info, logger_warn, logger_error.
  do 2 (apply adds_bind; [apply adds_read_env | intros ?]).
  cbn zeta. case_bool_decide; repeat adds_step.
Qed.

Lemma getSecretFromKeyVault_adds w s cred :
  adds (fun ev => is_log ev || remote_event ev = true)
    (AppConfigRefs.getSecretFromKeyVault w s cred).
Proof.
  unfold AppConfigRefs.getSecretFromKeyVault.
  repeat (first [adds_step | case_match]).
Qed.

Lemma refs_populateEnvironmentFromAppConfig_adds w :
  adds (fun ev => is_log ev || remote_event ev = true)
    (AppConfigRefs.populateEnvironmentFromAppConfig w).
Proof.
  unfold AppConfigRefs.populateEnvironmentFromAppConfig, AppConfigRefs.appConfig_body,
    logger_info, logger_warn, logger_error.
  do 2 (apply adds_bind; [apply adds_read_env | intros ?]).
  cbn zeta. case_bool_decide; repeat adds_step.
  repeat case_match; repeat (first [apply getSecretFromKeyVault_adds | adds_step]).
Qed.

(** ** Strings *)

Lemma replace_all_get c d s n :
  String.get n (replace_all c d s) =
  (fun a => if Ascii.eqb a c then d else a) <$> String.get n s.
Proof.
  revert n. induction s as [|a s IH]; intros n; [done|].
  destruct n as [|n]; cbn; [done | apply IH].
Qed.

(** ** Secrets overlaid on the environment *)

(** C6: every secret of the vault is assigned under its name with each
    dash turned into an underscore; when the listing completes and every
    secret is retrieved, the environment is the old one with these
    assignments made in listing order, so of the secrets whose names agree
    up to dashes and underscores the one listed last decides the value, and
    the step ends normally. *)
Theorem keyVault_names_normalised_last_wins (w : World) (st : State) (url : string)
    (sps : list SecretProperties) (pre post : list KeyVaultSecret) (s : KeyVaultSecret) :
  env st !! "AZURE_KEY_VAULT_ENDPOINT" = Some url ->
  url <> EmptyString ->
  listPropertiesOfSecrets w url (credential_of (env st)) = yields sps Done ->
  Forall2 (fun sp sec =>
             getSecret w url (credential_of (env st)) (Some (properties_name sp)) = Normal sec)
    sps (pre ++ s :: post) ->
  Forall (fun s' => replace_all "-" "_" (secret_name s') <>
                    replace_all "-" "_" (secret_name s)) post ->
  exists st',
    Combined.populateEnvironmentFromKeyVault w st = (Normal tt, st') /\
    env st' = apply_writes (env st) (map Combined.secret_write (pre ++ s :: post)) /\
    env st' !! replace_all "-" "_" (secret_name s) = Some (template (secret_value s)) /\
    forall n,
      String.get n (replace_all "-" "_" (secret_name s)) =
      (fun a => if Ascii.eqb a "-" then "_"%char else a) <$> String.get n (secret_name s).
Proof.
  intros Hurl Hne Hlist Hsecs Hpost.
  rewrite (populateEnvironmentFromKeyVault_set _ _ _ Hurl Hne), Hlist.
  assert (Hout : Forall2 (fun sp ws =>
            Combined.keyVault_writes w url (credential_of (env st)) sp = Normal ws)
            sps (map (fun sec => [Combined.secret_write sec]) (pre ++ s :: post))).
  { apply Forall2_fmap_r. eapply Forall2_impl; [exact Hsecs|].
    intros sp sec Hsec. unfold Combined.keyVault_writes. cbn. by rewrite Hsec. }
  rewrite (for_await_complete _ _ _ (keyVault_body_performs w url _) _ _ _ Hout).
  assert (Hcat : forall l : list KeyVaultSecret,
            concat (map (fun sec => [Combined.secret_write sec]) l) =
            map Combined.secret_write l).
  { induction l as [|x l IH]; cbn; [done | by rewrite IH]. }
  rewrite Hcat. cbn [rethrow_logged env trace].
  eexists. split; [reflexivity|]. cbn [env]. split; [done|]. split.
  - rewrite map_app. cbn [map]. unfold Combined.secret_write at 2.
    apply apply_writes_last. apply Forall_fmap.
    eapply Forall_impl; [exact Hpost|]. by intros s' Hs'.
  - intros n. apply replace_all_get.
Qed.

Lemma keyVault_names_normalised_last_wins_witness :
  replace_all "-" "_" "My-Secret-Name" = "My_Secret_Name" /\
  replace_all "-" "_" "A-B" = replace_all "-" "_" "A_B" /\
  exists st',
    Combined.populateEnvironmentFromKeyVault sample_world
      (started [("AZURE_KEY_VAULT_ENDPOINT", "https://kv.vault.azure.net")]) =
    (Normal tt, st') /\
    env st' !! "A_B" = Some "second".
Proof.
  split; [reflexivity|]. split; [reflexivity|].
  destruct (keyVault_names_normalised_last_wins sample_world
              (started [("AZURE_KEY_VAULT_ENDPOINT", "https://kv.vault.azure.net")])
              "https://kv.vault.azure.net"
              [ {| properties_name := "A-B" |}; {| properties_name := "A_B" |};
                {| properties_name := "My-Secret-Name" |} ]
              [ {| secret_name := "A-B"; secret_value := Some "first" |} ]
              [ {| secret_name := "My-Secret-Name"; secret_value := Some "third" |} ]
              {| secret_name := "A_B"; secret_value := Some "second" |})
    as (st' & Hrun & _ & Hlast & _).
  - reflexivity.
  - discriminate.
  - reflexivity.
  - repeat constructor.
  - repeat constructor. cbn. discriminate.
  - exists st'. split; [exact Hrun | exact Hlast].
Defined.

(** ** The loops, turn by turn *)

Lemma keyVault_prefix w url cred sps secs rest st :
  Forall2 (fun sp sec => getSecret w url cred (Some (properties_name sp)) = Normal sec)
    sps secs ->
  for_await (yields sps rest) (Combined.keyVault_body w url cred) st =
  for_await rest (Combined.keyVault_body w url cred)
    (mkState (apply_writes (env st) (map Combined.secret_write secs))
       (trace st ++ map (fun sp => GetSecret url (Some (properties_name sp))) sps)).
Proof.
  intros Hsecs.
  assert (Hout : Forall2 (fun sp ws => Combined.keyVault_writes w url cred sp = Normal ws)
            sps (map (fun sec => [Combined.secret_write sec]) secs)).
  { apply Forall2_fmap_r. eapply Forall2_impl; [exact Hsecs|].
    intros sp sec Hsec. unfold Combined.keyVault_writes. cbn. by rewrite Hsec. }
  rewrite (for_await_prefix _ _ _ (keyVault_body_performs w url cred) _ _ _ _ Hout).
  do 2 f_equal.
  - f_equal. clear. induction secs as [|x l IH]; cbn; [done | by rewrite IH].
  - f_equal. clear. induction sps as [|x l IH]; cbn; [done | by rewrite IH].
Qed.

Lemma combined_appConfig_prefix ss rest st :
  for_await (yields ss rest) Combined.appConfig_body st =
  for_await rest Combined.appConfig_body
    (mkState (apply_writes (env st) (map Combined.setting_write ss)) (trace st)).
Proof.
  assert (Hout : Forall2 (fun s ws => Normal [Combined.setting_write s] = Normal ws)
            ss (map (fun s => [Combined.setting_write s]) ss)).
  { apply Forall2_fmap_r, Forall_Forall2_diag, Forall_forall. done. }
  rewrite (for_await_prefix _ _ _ combined_appConfig_body_performs _ _ _ _ Hout).
  do 2 f_equal.
  - f_equal. clear. induction ss as [|x l IH]; cbn; [done | by rewrite IH].
  - rewrite <- (app_nil_r (trace st)) at 2. f_equal.
    clear. induction ss as [|x l IH]; cbn; done.
Qed.

Lemma refs_appConfig_prefix w cred ss wss rest st :
  Forall2 (fun s ws => AppConfigRefs.setting_writes w cred s = Normal ws) ss wss ->
  for_await (yields ss rest) (AppConfigRefs.appConfig_body w cred) st =
  for_await rest (AppConfigRefs.appConfig_body w cred)
    (mkState (apply_writes (env st) (concat wss))
       (trace st ++ concat (map (AppConfigRefs.setting_events w cred) ss))).
Proof. apply for_await_prefix, refs_appConfig_body_performs. Qed.


(** ** Failures part way *)



(** ** [getConfig], step by step *)

Lemma loadLocal_run w st :
  Combined.loadLocal w st =
  (Normal tt,
   if bool_decide (env st !! "NODE_ENV" = Some "production") then st
   else mkState (env st ∪ dotenv_parsed w) (trace st ++ [DotenvConfig])).
Proof.
  unfold Combined.loadLocal, bind, read_env. cbn beta iota.
  by case_bool_decide.
Qed.

Lemma loadLocal_trace w st :
  trace (snd (Combined.loadLocal w st)) =
  trace st ++
    (if bool_decide (env st !! "NODE_ENV" = Some "production") then [] else [DotenvConfig]).
Proof.
  rewrite loadLocal_run. cbn [snd]. case_bool_decide; cbn [trace]; by rewrite ?app_nil_r.
Qed.

Lemma combined_getConfig_keyVault_throws w st e st2 :
  Combined.populateEnvironmentFromKeyVault w (snd (Combined.loadLocal w st)) = (Throw e, st2) ->
  Combined.getConfig w st = (Throw e, st2).
Proof.
  intros H. unfold Combined.getConfig.
  erewrite bind_normal; last by rewrite loadLocal_run.
  rewrite loadLocal_run in H. cbn [snd] in H. by erewrite bind_throw.
Qed.

Lemma combined_getConfig_appConfig_throws w st st2 e st3 :
  Combined.populateEnvironmentFromKeyVault w (snd (Combined.loadLocal w st)) = (Normal tt, st2) ->
  Combined.populateEnvironmentFromAppConfig w st2 = (Throw e, st3) ->
  Combined.getConfig w st = (Throw e, st3).
Proof.
  intros H2 H3. unfold Combined.getConfig.
  erewrite bind_normal; last by rewrite loadLocal_run.
  rewrite loadLocal_run in H2. cbn [snd] in H2.
  erewrite bind_normal; last exact H2. by erewrite bind_throw.
Qed.

Lemma combined_getConfig_extracts w st st2 st3 :
  Combined.populateEnvironmentFromKeyVault w (snd (Combined.loadLocal w st)) = (Normal tt, st2) ->
  Combined.populateEnvironmentFromAppConfig w st2 = (Normal tt, st3) ->
  Combined.getConfig w st = extractConfig w st3.
Proof.
  intros H2 H3. unfold Combined.getConfig.
  erewrite bind_normal; last by rewrite loadLocal_run.
  rewrite loadLocal_run in H2. cbn [snd] in H2.
  erewrite bind_normal; last exact H2. by erewrite bind_normal.
Qed.

Lemma adds_run {A : Type} (P : Event -> Prop) (m : M A) st c st' :
  adds P m -> m st = (c, st') -> exists es, trace st' = trace st ++ es /\ Forall P es.
Proof. intros Hm H. specialize (Hm st). by rewrite H in Hm. Qed.

Lemma not_in_of_Forall (ev : Event) (P : Event -> Prop) es :
  ~ P ev -> Forall P es -> ~ In ev es.
Proof.
  intros Hn HF Hin. apply Hn. apply list_elem_of_In in Hin.
  exact (proj1 (Forall_forall P es) HF ev Hin).
Qed.

(** ** Failures of the remote stores *)

Lemma keyVault_failure w st1 url sps secs rest e :
  env st1 !! "AZURE_KEY_VAULT_ENDPOINT" = Some url ->
  url <> EmptyString ->
  listPropertiesOfSecrets w url (credential_of (env st1)) = yields sps rest ->
  Forall2 (fun sp sec =>
             getSecret w url (credential_of (env st1)) (Some (properties_name sp)) =
             Normal sec) sps secs ->
  (rest = Fail e \/
   exists sp rest', rest = Yield sp rest' /\
     getSecret w url (credential_of (env st1)) (Some (properties_name sp)) = Throw e) ->
  exists st2 es,
    Combined.populateEnvironmentFromKeyVault w st1 = (Throw e, st2) /\
    env st2 = apply_writes (env st1) (map Combined.secret_write secs) /\
    trace st2 = trace st1 ++ es /\
    ~ In RequireConfig es /\
    last es = Some (Log Err (keyVault_hint +:+ err_toString e)).
Proof.
  intros Hurl Hne Hlist Hsecs Hfail.
  assert (Hrun : exists st2,
    Combined.populateEnvironmentFromKeyVault w st1 = (Throw e, st2) /\
    env st2 = apply_writes (env st1) (map Combined.secret_write secs) /\
    exists es1, trace st2 =
      trace st1 ++ es1 ++ [Log Err (keyVault_hint +:+ err_toString e)]).
  { rewrite (populateEnvironmentFromKeyVault_set _ _ _ Hurl Hne), Hlist.
    rewrite (keyVault_prefix _ _ _ _ _ _ _ Hsecs). cbn [env trace].
    destruct Hfail as [->|(sp & rest' & -> & Hsp)]; cbn [for_await].
    - cbn [throw rethrow_logged env trace]. eexists. split; [reflexivity|].
      cbn [env trace]. split; [done|].
      exists ([Log Info "Populating environment from Azure KeyVault...";
               ListPropertiesOfSecrets url] ++
              map (fun sp => GetSecret url (Some (properties_name sp))) sps).
      by rewrite <- !app_assoc.
    - erewrite bind_throw; last first.
      { rewrite keyVault_body_performs. unfold Combined.keyVault_writes.
        rewrite Hsp. reflexivity. }
      cbn [rethrow_logged env trace]. eexists. split; [reflexivity|].
      cbn [env trace]. split; [done|].
      exists ([Log Info "Populating environment from Azure KeyVault...";
               ListPropertiesOfSecrets url] ++
              map (fun sp => GetSecret url (Some (properties_name sp))) sps ++
              [GetSecret url (Some (properties_name sp))]).
      by rewrite <- !app_assoc. }
  destruct Hrun as (st2 & Hrun & Henv & es1 & Htr).
  destruct (adds_run _ _ _ _ _ (combined_populateEnvironmentFromKeyVault_adds w) Hrun)
    as (es & Hes & HF).
  exists st2, es. split; [exact Hrun|]. split; [exact Henv|]. split; [exact Hes|].
  split.
  - eapply not_in_of_Forall; [|exact HF]. done.
  - rewrite Htr in Hes. apply app_inv_head in Hes. subst es.
    by rewrite last_snoc.
Qed.

Lemma combined_appConfig_failure w st2 url ss e :
  env st2 !! "AZURE_APPCONFIGURATION_ENDPOINT" = Some url ->
  url <> EmptyString ->
  listConfigurationSettings w url (credential_of (env st2)) = yields ss (Fail e) ->
  exists st3 es,
    Combined.populateEnvironmentFromAppConfig w st2 = (Throw e, st3) /\
    env st3 = apply_writes (env st2) (map Combined.setting_write ss) /\
    trace st3 = trace st2 ++ es /\
    ~ In RequireConfig es /\
    last es = Some (Log Err (appConfig_hint +:+ err_toString e)).
Proof.
  intros Hurl Hne Hlist.
  assert (Hrun : exists st3,
    Combined.populateEnvironmentFromAppConfig w st2 = (Throw e, st3) /\
    env st3 = apply_writes (env st2) (map Combined.setting_write ss) /\
    exists es1, trace st3 =
      trace st2 ++ es1 ++ [Log Err (appConfig_hint +:+ err_toString e)]).
  { rewrite (combined_populateEnvironmentFromAppConfig_set _ _ _ Hurl Hne), Hlist.
    rewrite combined_appConfig_prefix. cbn [for_await throw rethrow_logged env trace].
    eexists. split; [reflexivity|]. cbn [env trace]. split; [done|].
    exists [Log Info "Populating environment from Azure AppConfiguration...";
            ListConfigurationSettings url].
    by rewrite <- !app_assoc. }
  destruct Hrun as (st3 & Hrun & Henv & es1 & Htr).
  destruct (adds_run _ _ _ _ _ (combined_populateEnvironmentFromAppConfig_adds w) Hrun)
    as (es & Hes & HF).
  exists st3, es. split; [exact Hrun|]. split; [exact Henv|]. split; [exact Hes|].
  split.
  - eapply not_in_of_Forall; [|exact HF]. done.
  - rewrite Htr in Hes. apply app_inv_head in Hes. subst es.
    by rewrite last_snoc.
Qed.

Lemma loadLocal_adds w : adds (fun ev => ev = DotenvConfig) (Combined.loadLocal w).
Proof.
  intros st. rewrite loadLocal_trace. eexists. split; [done|].
  case_bool_decide; by repeat constructor.
Qed.

(** C4: in [index.ts], with the endpoint of a store configured, an error
    raised by the listing or by a retrieval is logged with the hint about
    permissions and raised again unchanged by the population step and by
    [getConfig]; [getConfig] stops there, the [config] package is not
    loaded and nothing is extracted. *)
Theorem remote_failure_aborts_startup (w : World) (st : State) :
  let st1 := snd (Combined.loadLocal w st) in
  (forall url sps secs rest e,
     env st1 !! "AZURE_KEY_VAULT_ENDPOINT" = Some url ->
     url <> EmptyString ->
     listPropertiesOfSecrets w url (credential_of (env st1)) = yields sps rest ->
     Forall2 (fun sp sec =>
                getSecret w url (credential_of (env st1)) (Some (properties_name sp)) =
                Normal sec) sps secs ->
     (rest = Fail e \/
      exists sp rest', rest = Yield sp rest' /\
        getSecret w url (credential_of (env st1)) (Some (properties_name sp)) = Throw e) ->
     exists st2 es,
       Combined.populateEnvironmentFromKeyVault w st1 = (Throw e, st2) /\
       Combined.getConfig w st = (Throw e, st2) /\
       trace st2 = trace st ++ es /\
       ~ In RequireConfig es /\
       last es = Some (Log Err (keyVault_hint +:+ err_toString e))) /\
  (forall st2 url ss e,
     Combined.populateEnvironmentFromKeyVault w st1 = (Normal tt, st2) ->
     env st2 !! "AZURE_APPCONFIGURATION_ENDPOINT" = Some url ->
     url <> EmptyString ->
     listConfigurationSettings w url (credential_of (env st2)) = yields ss (Fail e) ->
     exists st3 es,
       Combined.populateEnvironmentFromAppConfig w st2 = (Throw e, st3) /\
       Combined.getConfig w st = (Throw e, st3) /\
       trace st3 = trace st ++ es /\
       ~ In RequireConfig es /\
       last es = Some (Log Err (appConfig_hint +:+ err_toString e))).
Proof.
  intros st1.
  destruct (loadLocal_adds w st) as (es0 & Hes0 & HF0). fold st1 in Hes0.
  pose proof (combined_getConfig_keyVault_throws w st) as Hget1.
  pose proof (combined_getConfig_appConfig_throws w st) as Hget2.
  fold st1 in Hget1, Hget2. clearbody st1. split.
  - intros url sps secs rest e Hurl Hne Hlist Hsecs Hfail.
    destruct (keyVault_failure _ _ _ _ _ _ _ Hurl Hne Hlist Hsecs Hfail)
      as (st2 & es & Hrun & _ & Htr & Hnin & Hlast).
    exists st2, (es0 ++ es). split; [exact Hrun|]. split; [by apply Hget1|].
    split; [by rewrite Htr, Hes0, app_assoc|]. split.
    + rewrite in_app_iff. intros [Hin|Hin]; [|done].
      revert Hin. eapply not_in_of_Forall; [|exact HF0]. done.
    + destruct es as [|x es] using rev_ind; [by cbn in Hlast|].
      rewrite last_snoc in Hlast. by rewrite app_assoc, last_snoc.
  - intros st2 url ss e Hkv Hurl Hne Hlist.
    destruct (combined_appConfig_failure _ _ _ _ _ Hurl Hne Hlist)
      as (st3 & es & Hrun & _ & Htr & Hnin & Hlast).
    destruct (adds_run _ _ _ _ _ (combined_populateEnvironmentFromKeyVault_adds w) Hkv)
      as (es2 & Hes2 & HF2).
    exists st3, (es0 ++ es2 ++ es). split; [exact Hrun|].
    split; [by eapply Hget2|].
    split; [by rewrite Htr, Hes2, Hes0, <- !app_assoc|]. split.
    + rewrite !in_app_iff. intros [Hin|[Hin|Hin]]; [| |done].
      * revert Hin. eapply not_in_of_Forall; [|exact HF0]. done.
      * revert Hin. eapply not_in_of_Forall; [|exact HF2]. done.
    + destruct es as [|x es] using rev_ind; [by cbn in Hlast|].
      rewrite last_snoc in Hlast. by rewrite !app_assoc, last_snoc.
Qed.

Lemma remote_failure_aborts_startup_witness :
  (exists st2 es,
     Combined.getConfig sample_world
       (started [("NODE_ENV", "production");
                 ("AZURE_KEY_VAULT_ENDPOINT", "https://locked.vault.azure.net")]) =
     (Throw forbidden, st2) /\
     trace st2 = es /\ ~ In RequireConfig es) /\
  (exists st3 es,
     Combined.getConfig sample_world
       (started [("NODE_ENV", "production");
                 ("AZURE_APPCONFIGURATION_ENDPOINT", "https://locked.azconfig.io")]) =
     (Throw forbidden, st3) /\
     trace st3 = es /\ ~ In RequireConfig es).
Proof.
  split.
  - pose proof (remote_failure_aborts_startup sample_world
                  (started [("NODE_ENV", "production");
                            ("AZURE_KEY_VAULT_ENDPOINT", "https://locked.vault.azure.net")]))
      as H.
    cbv zeta in H. destruct H as [Hkv _].
    destruct (Hkv "https://locked.vault.azure.net"
                [ {| properties_name := "A-B" |} ]
                [ {| secret_name := "A-B"; secret_value := Some "first" |} ]
                (Fail forbidden) forbidden)
      as (st2 & es & _ & Hget & Htr & Hnin & _).
    + reflexivity.
    + discriminate.
    + reflexivity.
    + repeat constructor.
    + by left.
    + exists st2, es. split; [exact Hget|]. split; [exact Htr | exact Hnin].
  - pose proof (remote_failure_aborts_startup sample_world
                  (started [("NODE_ENV", "production");
                            ("AZURE_APPCONFIGURATION_ENDPOINT", "https://locked.azconfig.io")]))
      as H.
    cbv zeta in H. destruct H as [_ Hac].
    destruct (Hac (snd (Combined.populateEnvironmentFromKeyVault sample_world
                          (started [("NODE_ENV", "production");
                                    ("AZURE_APPCONFIGURATION_ENDPOINT",
                                     "https://locked.azconfig.io")])))
                "https://locked.azconfig.io"
                [ {| setting_key := "GREETING"; setting_value := Some "hello" |} ]
                forbidden)
      as (st3 & es & _ & Hget & Htr & Hnin & _).
    + vm_compute. reflexivity.
    + vm_compute. reflexivity.
    + discriminate.
    + reflexivity.
    + exists st3, es. split; [exact Hget|]. split; [exact Htr | exact Hnin].
Defined.

(** The vault refuses the second page of its listing.  What [getConfig]
    raises is the error of the SDK itself, the very value the listing
    raised, its name [RestError]: the module defines no error class of its
    own and wraps nothing. *)
Lemma remote_failure_aborts_startup_counterexample :
  listPropertiesOfSecrets sample_world "https://locked.vault.azure.net" (credential_of ∅) =
    yields [ {| properties_name := "A-B" |} ] (Fail forbidden) /\
  fst (Combined.getConfig sample_world
         (started [("NODE_ENV", "production");
                   ("AZURE_KEY_VAULT_ENDPOINT", "https://locked.vault.azure.net")])) =
    Throw forbidden /\
  err_name forbidden = "RestError" /\
  err_name forbidden <> "SecretStoreAuthError" /\
  last (trace (snd (Combined.getConfig sample_world
                      (started [("NODE_ENV", "production");
                                ("AZURE_KEY_VAULT_ENDPOINT",
                                 "https://locked.vault.azure.net")])))) =
    Some (Log Err (keyVault_hint +:+
                   "RestError: Caller is not authorized to perform action on resource.")).
Proof.
  split; [reflexivity|]. split; [vm_compute; reflexivity|]. split; [reflexivity|].
  split; [discriminate|]. vm_compute. reflexivity.
Qed.

(** ** Secrets first, settings second *)

Lemma combined_appConfig_complete w st2 url ss :
  env st2 !! "AZURE_APPCONFIGURATION_ENDPOINT" = Some url ->
  url <> EmptyString ->
  listConfigurationSettings w url (credential_of (env st2)) = yields ss Done ->
  Combined.populateEnvironmentFromAppConfig w st2 =
  (Normal tt,
   mkState (apply_writes (env st2) (map Combined.setting_write ss))
     (trace st2 ++ [Log Info "Populating environment from Azure AppConfiguration...";
                    ListConfigurationSettings url])).
Proof.
  intros Hurl Hne Hlist.
  rewrite (combined_populateEnvironmentFromAppConfig_set _ _ _ Hurl Hne), Hlist.
  by rewrite combined_appConfig_prefix.
Qed.

Lemma extract_warnings_logs db obs : Forall (fun ev => is_log ev = true) (extract_warnings db obs).
Proof.
  unfold extract_warnings. apply Forall_app. split; case_bool_decide; by repeat constructor.
Qed.

(** C5: in [index.ts] the secrets are overlaid before the settings: every
    call on the secret store precedes every call on the config store, and
    when both steps end normally the environment [getConfig] leaves is the
    one the secret step left with the settings assigned over it in listing
    order.  A key both stores define therefore carries the value of the
    config store, and a secret survives only under a key no setting has. *)
Theorem config_store_overrides_secrets (w : World) (st st2 : State) (url : string)
    (pre post : list ConfigurationSetting) (s : ConfigurationSetting) :
  Combined.populateEnvironmentFromKeyVault w (snd (Combined.loadLocal w st)) = (Normal tt, st2) ->
  env st2 !! "AZURE_APPCONFIGURATION_ENDPOINT" = Some url ->
  url <> EmptyString ->
  listConfigurationSettings w url (credential_of (env st2)) = yields (pre ++ s :: post) Done ->
  Forall (fun s' => setting_key s' <> setting_key s) post ->
  exists cfg st' es1 es2,
    Combined.getConfig w st = (Normal cfg, st') /\
    env st' = apply_writes (env st2) (map Combined.setting_write (pre ++ s :: post)) /\
    env st' !! setting_key s = Some (template (setting_value s)) /\
    (forall k, Forall (fun s' => setting_key s' <> k) (pre ++ s :: post) ->
               env st' !! k = env st2 !! k) /\
    trace st2 = trace st ++ es1 /\
    trace st' = trace st ++ es1 ++ es2 /\
    Forall (fun ev => config_store_event ev = false) es1 /\
    Forall (fun ev => secret_store_event ev = false) es2.
Proof.
  intros Hkv Hurl Hne Hlist Hpost.
  pose proof (combined_appConfig_complete _ _ _ _ Hurl Hne Hlist) as Hac.
  pose proof (combined_getConfig_extracts _ _ _ _ Hkv Hac) as Hget.
  rewrite extractConfig_run in Hget. cbn [env trace] in Hget.
  destruct (loadLocal_adds w st) as (es0 & Hes0 & HF0).
  destruct (adds_run _ _ _ _ _ (combined_populateEnvironmentFromKeyVault_adds w) Hkv)
    as (es & Hes & HF).
  eexists _, _, (es0 ++ es), _. split; [exact Hget|]. cbn [env trace].
  split; [done|]. split; [|split; [|split; [|split; [|split]]]].
  - rewrite map_app. cbn [map]. unfold Combined.setting_write at 2.
    apply apply_writes_last. apply Forall_fmap.
    eapply Forall_impl; [exact Hpost|]. by intros s' Hs'.
  - intros k Hk. apply apply_writes_untouched. apply Forall_fmap.
    eapply Forall_impl; [exact Hk|]. by intros s' Hs'.
  - by rewrite Hes, Hes0, app_assoc.
  - rewrite Hes, Hes0, <- !app_assoc. cbn [app]. reflexivity.
  - apply Forall_app. split.
    + eapply Forall_impl; [exact HF0|]. by intros ev ->.
    + eapply Forall_impl; [exact HF|]. intros ev Hev. by destruct ev.
  - repeat constructor.
    eapply Forall_impl; [apply extract_warnings_logs|]. intros ev Hev. by destruct ev.
Qed.

Lemma config_store_overrides_secrets_witness :
  exists cfg st',
    Combined.getConfig sample_world
      (started [("NODE_ENV", "production");
                ("AZURE_KEY_VAULT_ENDPOINT", "https://kv.vault.azure.net");
                ("AZURE_APPCONFIGURATION_ENDPOINT", "https://plain.azconfig.io")]) =
    (Normal cfg, st') /\
    env st' !! "A_B" = Some "from-config" /\
    env st' !! "My_Secret_Name" = Some "third".
Proof.
  destruct (config_store_overrides_secrets sample_world
              (started [("NODE_ENV", "production");
                        ("AZURE_KEY_VAULT_ENDPOINT", "https://kv.vault.azure.net");
                        ("AZURE_APPCONFIGURATION_ENDPOINT", "https://plain.azconfig.io")])
              (snd (Combined.populateEnvironmentFromKeyVault sample_world
                      (started [("NODE_ENV", "production");
                                ("AZURE_KEY_VAULT_ENDPOINT", "https://kv.vault.azure.net");
                                ("AZURE_APPCONFIGURATION_ENDPOINT",
                                 "https://plain.azconfig.io")])))
              "https://plain.azconfig.io"
              []
              [ {| setting_key := "EMPTY"; setting_value := Some EmptyString |};
                {| setting_key := "AZURE_COSMOS_CONNECTION_STRING";
                   setting_value := Some "mongodb://cosmos" |} ]
              {| setting_key := "A_B"; setting_value := Some "from-config" |})
    as (cfg & st' & es1 & es2 & Hget & _ & Hlast & Hkeep & _).
  - vm_compute. reflexivity.
  - vm_compute. reflexivity.
  - discriminate.
  - reflexivity.
  - repeat constructor; discriminate.
  - exists cfg, st'. split; [exact Hget|]. split; [exact Hlast|].
    rewrite (Hkeep "My_Secret_Name"); [vm_compute; reflexivity|].
    repeat constructor; discriminate.
Defined.

(** ** Key Vault references *)

(** A setting counts as a reference exactly when its value is not empty and
    parses to an object with a string [uri]. *)
Lemma isKeyVaultReference_spec w s :
  AppConfigRefs.isKeyVaultReference w s = true <->
  exists v o, setting_value s = Some v /\ v <> EmptyString /\
              JSON_parse w v = Normal o /\ AppConfigRefs.has_string_uri o = true.
Proof.
  unfold AppConfigRefs.isKeyVaultReference, AppConfigRefs.has_string_uri. split.
  - destruct (setting_value s) as [v|]; [|done].
    case_bool_decide as Hv; [done|].
    destruct (JSON_parse w v) as [o|e] eqn:Hparse; [|done].
    intros H. exists v, o. split; [done|]. split; [done|]. split; [done|].
    destruct o as [| |b|f|t|items|props]; cbn in H |- *; try done.
    + by destruct b.
    + by destruct (negb _).
    + by destruct (negb _).
  - intros (v & o & -> & Hv & -> & Ho).
    rewrite bool_decide_eq_false_2 by done.
    by destruct o.
Qed.

Lemma split_lookup_nonempty c uri i x :
  (0 < i)%nat -> split c uri !! i = Some x -> uri <> EmptyString.
Proof. intros Hi H ->. destruct i; [lia|]. done. Qed.

(** C2: a setting whose value is the text of a JSON object with a string
    [uri] is treated as a reference: the URI is cut at every slash, piece 2
    is the vault host and piece 4 the secret name, the secret is asked from
    the vault at https://host, and the value assigned under the key of the
    setting is the value of that secret, not the JSON text. *)
Theorem reference_resolves_to_secret (w : World) (cred : DefaultAzureCredential)
    (s : ConfigurationSetting) (st : State) (v : string)
    (props : list (string * JSValue)) (uri host name : string)
    (sec : KeyVaultSecret) (sv : string) :
  setting_value s = Some v ->
  v <> EmptyString ->
  JSON_parse w v = Normal (JObject props) ->
  own_property "uri" props = JString uri ->
  split "/" uri !! 2%nat = Some host ->
  split "/" uri !! 4%nat = Some name ->
  getSecret w ("https://" +:+ host) cred (Some name) = Normal sec ->
  secret_value sec = Some sv ->
  AppConfigRefs.isKeyVaultReference w s = true /\
  AppConfigRefs.getSecretFromKeyVault w s cred st =
    (Normal (Some sv),
     mkState (env st) (trace st ++ [GetSecret ("https://" +:+ host) (Some name)])) /\
  AppConfigRefs.appConfig_body w cred s st =
    (Normal tt,
     mkState (<[setting_key s := sv]> (env st))
       (trace st ++ [GetSecret ("https://" +:+ host) (Some name)])).
Proof.
  intros Hv Hne Hparse Huri Hhost Hname Hsec Hsv.
  assert (Href : AppConfigRefs.isKeyVaultReference w s = true).
  { apply isKeyVaultReference_spec. exists v, (JObject props).
    split; [done|]. split; [done|]. split; [done|]. cbn. by rewrite Huri. }
  assert (Hget : AppConfigRefs.getSecretFromKeyVault w s cred st =
    (Normal (Some sv),
     mkState (env st) (trace st ++ [GetSecret ("https://" +:+ host) (Some name)]))).
  { unfold AppConfigRefs.getSecretFromKeyVault. rewrite Hv.
    rewrite bool_decide_eq_false_2 by done.
    unfold bind at 1, await. rewrite Hparse. cbn [get_uri]. rewrite Huri.
    assert (Hu : uri <> EmptyString) by (eapply (split_lookup_nonempty _ _ 2); [lia|done]).
    cbn [truthy]. rewrite bool_decide_eq_false_2 by done. cbn [negb].
    cbn zeta. rewrite Hhost, Hname. cbn [template default].
    unfold bind, emit, ret, id. cbn [env trace]. rewrite Hsec, Hsv. reflexivity. }
  split; [exact Href|]. split; [exact Hget|].
  unfold AppConfigRefs.appConfig_body. rewrite Href, Hv. cbn [nonempty].
  rewrite bool_decide_eq_false_2 by done. cbn [negb andb].
  erewrite bind_normal; last exact Hget. reflexivity.
Qed.

Lemma reference_resolves_to_secret_witness :
  split "/" "https://myvault.vault.azure.net/secrets/mysecret" =
    ["https:"; EmptyString; "myvault.vault.azure.net"; "secrets"; "mysecret"] /\
  AppConfigRefs.appConfig_body sample_world (credential_of ∅)
    {| setting_key := "API_KEY";
       setting_value :=
         Some (reference_text "https://myvault.vault.azure.net/secrets/mysecret") |}
    (started [("API_KEY", "inherited")]) =
  (Normal tt,
   mkState (<["API_KEY" := "s3cr3t"]> (env (started [("API_KEY", "inherited")])))
     [GetSecret "https://myvault.vault.azure.net" (Some "mysecret")]).
Proof.
  split; [reflexivity|].
  apply (reference_resolves_to_secret sample_world (credential_of ∅)
           {| setting_key := "API_KEY";
              setting_value :=
                Some (reference_text "https://myvault.vault.azure.net/secrets/mysecret") |}
           (started [("API_KEY", "inherited")])
           (reference_text "https://myvault.vault.azure.net/secrets/mysecret")
           [("uri", JString "https://myvault.vault.azure.net/secrets/mysecret")]
           "https://myvault.vault.azure.net/secrets/mysecret"
           "myvault.vault.azure.net" "mysecret"
           {| secret_name := "mysecret"; secret_value := Some "s3cr3t" |} "s3cr3t");
    first [reflexivity | discriminate].
Defined.

(** ** Settings that are no references *)

(** C7: a setting with a value that does not parse as JSON, or parses to
    something other than an object with a string [uri], is no reference; its
    turn of the loop raises nothing and, when the value is not empty, assigns
    the value as it stands under the key of the setting.  When the value is
    the empty string the turn assigns nothing. *)
Theorem literal_setting_written_verbatim (w : World) (cred : DefaultAzureCredential)
    (s : ConfigurationSetting) (st : State) (v : string) :
  setting_value s = Some v ->
  ((exists e, JSON_parse w v = Throw e) \/
   (exists o, JSON_parse w v = Normal o /\ AppConfigRefs.has_string_uri o = false)) ->
  AppConfigRefs.isKeyVaultReference w s = false /\
  AppConfigRefs.appConfig_body w cred s st =
    (Normal tt,
     if bool_decide (v = EmptyString) then st
     else mkState (<[setting_key s := v]> (env st)) (trace st)).
Proof.
  intros Hv Hparse.
  assert (Href : AppConfigRefs.isKeyVaultReference w s = false).
  { apply not_true_is_false. intros Href. apply isKeyVaultReference_spec in Href.
    destruct Href as (v' & o & Hv' & _ & Hp & Ho). rewrite Hv in Hv'. injection Hv' as <-.
    destruct Hparse as [[e He]|(o' & Ho' & Hno)]; rewrite Hp in *; [done|].
    injection Ho' as <-. by rewrite Ho in Hno. }
  split; [exact Href|].
  unfold AppConfigRefs.appConfig_body. rewrite Href, Hv. cbn [nonempty].
  rewrite andb_false_r. by case_bool_decide.
Qed.

Lemma literal_setting_written_verbatim_witness :
  AppConfigRefs.appConfig_body sample_world (credential_of ∅)
    {| setting_key := "AZURE_COSMOS_CONNECTION_STRING";
       setting_value := Some "mongodb://cosmos" |}
    (started [("AZURE_COSMOS_CONNECTION_STRING", "inherited")]) =
  (Normal tt,
   mkState (<["AZURE_COSMOS_CONNECTION_STRING" := "mongodb://cosmos"]>
              (env (started [("AZURE_COSMOS_CONNECTION_STRING", "inherited")]))) []).
Proof.
  apply (literal_setting_written_verbatim sample_world (credential_of ∅)
           {| setting_key := "AZURE_COSMOS_CONNECTION_STRING";
              setting_value := Some "mongodb://cosmos" |}
           (started [("AZURE_COSMOS_CONNECTION_STRING", "inherited")])
           "mongodb://cosmos").
  - reflexivity.
  - left. eexists. reflexivity.
Defined.

(** The empty string does not parse, yet the turn of a setting with an
    empty value assigns nothing: the key keeps the inherited value. *)
Lemma literal_setting_written_verbatim_counterexample :
  (exists e, JSON_parse sample_world EmptyString = Throw e) /\
  env (snd (AppConfigRefs.appConfig_body sample_world (credential_of ∅)
              {| setting_key := "EMPTY"; setting_value := Some EmptyString |}
              (started [("EMPTY", "inherited")]))) !! "EMPTY" = Some "inherited" /\
  env (snd (AppConfigRefs.appConfig_body sample_world (credential_of ∅)
              {| setting_key := "EMPTY"; setting_value := Some EmptyString |}
              (started [("EMPTY", "inherited")]))) !! "EMPTY" <> Some EmptyString.
Proof.
  split; [eexists; reflexivity|]. split; [reflexivity | discriminate].
Qed.

(** ** [getConfig] in the revision with references *)

Lemma refs_getConfig_run w st :
  AppConfigRefs.getConfig w st =
  if bool_decide (env st !! "NODE_ENV" = Some "production") then
    bind (AppConfigRefs.populateEnvironmentFromAppConfig w) (fun _ => extractConfig w)
      (mkState (env st) (trace st ++ [Log Info (loading_message (env st))]))
  else
    extractConfig w
      (mkState (env st ∪ dotenv_parsed w)
         (trace st ++ [Log Info (loading_message (env st)); DotenvConfig])).
Proof.
  unfold AppConfigRefs.getConfig, loading_message.
  unfold bind at 1 2 3, read_env, logger_info, emit. cbn [env trace].
  case_bool_decide; [done|].
  unfold bind, dotenv_config. cbn [env trace]. by rewrite <- app_assoc.
Qed.








(** ** The runtime mode *)

Lemma refs_getConfig_tail_adds w :
  adds (fun ev => ev <> DotenvConfig)
    (bind (AppConfigRefs.populateEnvironmentFromAppConfig w) (fun _ => extractConfig w)).
Proof.
  apply adds_bind.
  - eapply adds_weaken; [|apply refs_populateEnvironmentFromAppConfig_adds].
    intros ev Hev ->. done.
  - intros _. by apply adds_extractConfig.
Qed.

Lemma combined_getConfig_tail_adds w :
  adds (fun ev => ev <> DotenvConfig)
    (bind (Combined.populateEnvironmentFromKeyVault w) (fun _ =>
       bind (Combined.populateEnvironmentFromAppConfig w) (fun _ => extractConfig w))).
Proof.
  apply adds_bind; [|intros _; apply adds_bind; [|intros _]].
  - eapply adds_weaken; [|apply combined_populateEnvironmentFromKeyVault_adds].
    intros ev Hev ->. done.
  - eapply adds_weaken; [|apply combined_populateEnvironmentFromAppConfig_adds].
    intros ev Hev ->. done.
  - by apply adds_extractConfig.
Qed.

(** The secret step asks for the listing as soon as its endpoint is set. *)
Lemma keyVault_listing_asked w st1 url :
  env st1 !! "AZURE_KEY_VAULT_ENDPOINT" = Some url ->
  url <> EmptyString ->
  exists es,
    trace (snd (Combined.populateEnvironmentFromKeyVault w st1)) =
    trace st1 ++ Log Info "Populating environment from Azure KeyVault..." ::
      ListPropertiesOfSecrets url :: es.
Proof.
  intros Hurl Hne. rewrite (populateEnvironmentFromKeyVault_set _ _ _ Hurl Hne).
  destruct (adds_for_await (fun _ => True)
              (listPropertiesOfSecrets w url (credential_of (env st1)))
              (Combined.keyVault_body w url (credential_of (env st1)))
              ltac:(intros a st; eexists; split; [|apply Forall_true; done];
                    rewrite keyVault_body_performs;
                    destruct (Combined.keyVault_writes _ _ _ _); reflexivity)
              (mkState (env st1)
                 (trace st1 ++ [Log Info "Populating environment from Azure KeyVault...";
                                ListPropertiesOfSecrets url])))
    as (es & Hes & _).
  destruct (for_await _ _ _) as [[[]|e] st2]; cbn [snd rethrow_logged trace] in *.
  - exists es. rewrite Hes, <- app_assoc. reflexivity.
  - eexists (es ++ [_]). rewrite Hes, <- !app_assoc. reflexivity.
Qed.

Lemma refs_listing_asked w st1 url :
  env st1 !! "AZURE_APPCONFIGURATION_ENDPOINT" = Some url ->
  url <> EmptyString ->
  exists es,
    trace (snd (AppConfigRefs.populateEnvironmentFromAppConfig w st1)) =
    trace st1 ++ Log Info "Populating environment from Azure AppConfiguration..." ::
      ListConfigurationSettings url :: es.
Proof.
  intros Hurl Hne. rewrite (refs_populateEnvironmentFromAppConfig_set _ _ _ Hurl Hne).
  destruct (adds_for_await (fun _ => True)
              (listConfigurationSettings w url (credential_of (env st1)))
              (AppConfigRefs.appConfig_body w (credential_of (env st1)))
              ltac:(intros a st; eexists; split; [|apply Forall_true; done];
                    rewrite refs_appConfig_body_performs;
                    destruct (AppConfigRefs.setting_writes _ _ _); reflexivity)
              (mkState (env st1)
                 (trace st1 ++ [Log Info "Populating environment from Azure AppConfiguration...";
                                ListConfigurationSettings url])))
    as (es & Hes & _).
  destruct (for_await _ _ _) as [[[]|e] st2]; cbn [snd rethrow_logged trace] in *.
  - exists es. rewrite Hes, <- app_assoc. reflexivity.
  - eexists (es ++ [_]). rewrite Hes, <- !app_assoc. reflexivity.
Qed.

(** What a later step adds comes after what an earlier step added. *)
Lemma bind_keeps_event {A B : Type} (m : M A) (k : A -> M B) (P : Event -> Prop)
    st ev es1 es :
  (forall a, adds P (k a)) ->
  trace (snd (m st)) = trace st ++ es1 ->
  In ev es1 ->
  trace (snd (bind m k st)) = trace st ++ es ->
  In ev es.
Proof.
  intros Hk H1 Hin H. unfold bind in H. destruct (m st) as [[a|e] st1]; cbn [snd] in *.
  - destruct (Hk a st1) as (es2 & Hes2 & _). rewrite Hes2, H1, <- app_assoc in H.
    apply app_inv_head in H. subst es. apply in_or_app. by left.
  - rewrite H1 in H. apply app_inv_head in H. by subst es.
Qed.

Lemma combined_appConfig_then_extract_adds w :
  adds (fun _ => True)
    (bind (Combined.populateEnvironmentFromAppConfig w) (fun _ => extractConfig w)).
Proof.
  apply adds_bind.
  - eapply adds_weaken; [|apply combined_populateEnvironmentFromAppConfig_adds]. done.
  - intros _. by apply adds_extractConfig.
Qed.

(** * Further properties *)

(** ** The revision with the configuration provider *)

Lemma provider_for_of Value (toString : Value -> string) kvs st :
  for_of kvs (Provider.appConfig_body Value toString) st =
  (Normal tt,
   mkState (apply_writes (env st) (map (Provider.entry_write Value toString) kvs))
     (trace st ++ map (Provider.entry_log Value toString) kvs)).
Proof.
  revert st. induction kvs as [|kv kvs IH]; intros st.
  - cbn. rewrite app_nil_r. by destruct st.
  - cbn [for_of]. unfold bind at 1. unfold Provider.appConfig_body at 1.
    unfold bind, logger_info, emit, assign_env. cbn [env trace].
    rewrite IH. cbn [env trace map apply_writes foldl].
    by rewrite <- app_assoc.
Qed.

Lemma provider_populate_set Value (toString : Value -> string) load st url :
  env st !! "AZURE_APPCONFIGURATION_ENDPOINT" = Some url -> url <> EmptyString ->
  Provider.populateEnvironmentFromAppConfig Value toString load st =
  rethrow_logged appConfig_or_keyVault_hint
    (match load url with
     | Normal kvs =>
         for_of kvs (Provider.appConfig_body Value toString)
           (mkState (env st)
              (trace st ++ [Log Info "Populating environment from Azure AppConfiguration..."]))
     | Throw e =>
         (Throw e,
          mkState (env st)
            (trace st ++ [Log Info "Populating environment from Azure AppConfiguration..."]))
     end).
Proof.
  intros Hurl Hne. destruct (endpoint_set _ _ _ Hurl Hne) as [Hd Hb].
  unfold Provider.populateEnvironmentFromAppConfig, bind, read_env.
  cbn beta iota zeta. rewrite Hb, Hd.
  unfold try_catch, bind, logger_info, logger_error, emit, throw, await, rethrow_logged.
  cbn [env trace].
  destruct (load url) as [kvs|e]; [|done].
  by destruct (for_of _ _ _) as [[[]|e] st'].
Qed.

Lemma provider_populate_unset Value (toString : Value -> string) load st :
  default EmptyString (env st !! "AZURE_APPCONFIGURATION_ENDPOINT") = EmptyString ->
  Provider.populateEnvironmentFromAppConfig Value toString load st =
  (Normal tt,
   mkState (env st)
     (trace st ++ [Log Warn "AZURE_APPCONFIGURATION_ENDPOINT has not been set. Configuration will be loaded from current environment."])).
Proof.
  intros Hd.
  unfold Provider.populateEnvironmentFromAppConfig, bind, read_env.
  cbn beta iota zeta. by rewrite Hd.
Qed.

Lemma provider_getConfig_run w Value (toString : Value -> string) load st :
  Provider.getConfig w Value toString load st =
  if bool_decide (env st !! "NODE_ENV" = Some "production") then
    bind (Provider.populateEnvironmentFromAppConfig Value toString load)
      (fun _ => extractConfig w)
      (mkState (env st) (trace st ++ [Log Info (loading_message (env st))]))
  else
    extractConfig w
      (mkState (env st ∪ dotenv_parsed w)
         (trace st ++ [Log Info (loading_message (env st)); DotenvConfig])).
Proof.
  unfold Provider.getConfig, loading_message.
  unfold bind at 1 2 3, read_env, logger_info, emit. cbn [env trace].
  case_bool_decide; [done|].
  unfold bind, dotenv_config. cbn [env trace]. by rewrite <- app_assoc.
Qed.

(** X2: when [load] fails, the provider revision has assigned nothing: the
    environment is the one the step started with, the error is logged with
    the hint and raised again, and in production mode [getConfig] raises it
    without loading the [config] package. *)
Theorem provider_load_failure_assigns_nothing (w : World) (Value : Type)
    (toString : Value -> string) (load : string -> Completion (list (string * Value)))
    (st : State) (url : string) (e : JSError) :
  env st !! "AZURE_APPCONFIGURATION_ENDPOINT" = Some url ->
  url <> EmptyString ->
  load url = Throw e ->
  Provider.populateEnvironmentFromAppConfig Value toString load st =
    (Throw e,
     mkState (env st)
       (trace st ++ [Log Info "Populating environment from Azure AppConfiguration...";
                     Log Err (appConfig_or_keyVault_hint +:+ err_toString e)])) /\
  (env st !! "NODE_ENV" = Some "production" ->
   Provider.getConfig w Value toString load st =
     (Throw e,
      mkState (env st)
        (trace st ++ [Log Info (loading_message (env st));
                      Log Info "Populating environment from Azure AppConfiguration...";
                      Log Err (appConfig_or_keyVault_hint +:+ err_toString e)]))).
Proof.
  intros Hurl Hne Hload. split.
  - rewrite (provider_populate_set _ _ _ _ _ Hurl Hne), Hload.
    cbn [rethrow_logged env trace]. by rewrite <- app_assoc.
  - intros Hprod. rewrite provider_getConfig_run, bool_decide_eq_true_2 by done.
    erewrite bind_throw; [reflexivity|].
    rewrite (provider_populate_set Value toString load
               (mkState (env st) (trace st ++ [Log Info (loading_message (env st))]))
               url Hurl Hne), Hload.
    cbn [rethrow_logged env trace]. by rewrite <- !app_assoc.
Qed.

Lemma provider_load_failure_assigns_nothing_witness :
  exists st',
    Provider.getConfig sample_world string id sample_load
      (started [("NODE_ENV", "production");
                ("AZURE_APPCONFIGURATION_ENDPOINT", "https://locked.azconfig.io")]) =
    (Throw forbidden, st') /\
    env st' = env (started [("NODE_ENV", "production");
                            ("AZURE_APPCONFIGURATION_ENDPOINT", "https://locked.azconfig.io")]) /\
    ~ In RequireConfig (trace st').
Proof.
  destruct (provider_load_failure_assigns_nothing sample_world string id sample_load
              (started [("NODE_ENV", "production");
                        ("AZURE_APPCONFIGURATION_ENDPOINT", "https://locked.azconfig.io")])
              "https://locked.azconfig.io" forbidden) as [_ Hget];
    [reflexivity | discriminate | reflexivity |].
  eexists. split; [apply Hget; reflexivity|]. split; [reflexivity|].
  cbn. intros [H|[H|[H|[]]]]; discriminate.
Defined.

(** ** The checks of the extractor *)

(** X5: the extractor logs a warning for the database connection string
    exactly when it is empty, one for the observability connection string
    exactly when that is empty, and nothing else: the database name and the
    role name are passed on unchecked. *)
Theorem extractConfig_warns_exactly_for_empty_connection_strings (w : World) (st : State) :
  exists cfg st' es,
    extractConfig w st = (Normal cfg, st') /\
    trace st' = trace st ++ RequireConfig :: es /\
    (In (Log Warn database_warning) es <->
     db_connectionString (config_get_database w (env st)) = EmptyString) /\
    (In (Log Warn observability_warning) es <->
     obs_connectionString (config_get_observability w (env st)) = EmptyString) /\
    (forall ev, In ev es ->
                ev = Log Warn database_warning \/ ev = Log Warn observability_warning) /\
    databaseName (database cfg) = databaseName (config_get_database w (env st)) /\
    roleName (observability cfg) = roleName (config_get_observability w (env st)) /\
    mentions observability_warning "APPLICATIONINSIGHTS_CONNECTION_STRING" = true.
Proof.
  rewrite extractConfig_run. eexists _, _, _. split; [reflexivity|].
  cbn [env trace database observability]. split; [reflexivity|].
  unfold extract_warnings.
  assert (Hne : Log Warn database_warning <> Log Warn observability_warning)
    by (intros [=]).
  split; [|split; [|split; [|split; [done|split; [done|by vm_compute]]]]].
  - rewrite in_app_iff. split.
    + intros [H|H]; case_bool_decide; try done; destruct H as [H|[]].
      by symmetry in H.
    + intros Hempty. left. rewrite bool_decide_eq_true_2 by done. by left.
  - rewrite in_app_iff. split.
    + intros [H|H]; case_bool_decide; try done; destruct H as [H|[]]; done.
    + intros Hempty. right. rewrite bool_decide_eq_true_2 by done. by left.
  - intros ev. rewrite in_app_iff.
    intros [H|H]; case_bool_decide; try done; destruct H as [H|[]]; auto.
Qed.

Lemma extractConfig_warns_exactly_for_empty_connection_strings_witness :
  exists cfg st',
    extractConfig sample_world
      (started [("AZURE_COSMOS_CONNECTION_STRING", "mongodb://cosmos");
                ("APPLICATIONINSIGHTS_CONNECTION_STRING", "InstrumentationKey=0")]) =
    (Normal cfg, st') /\
    trace st' = [RequireConfig].
Proof.
  destruct (extractConfig_warns_exactly_for_empty_connection_strings sample_world
              (started [("AZURE_COSMOS_CONNECTION_STRING", "mongodb://cosmos");
                        ("APPLICATIONINSIGHTS_CONNECTION_STRING", "InstrumentationKey=0")]))
    as (cfg & st' & es & Hrun & Htr & Hdb & Hobs & Honly & _).
  exists cfg, st'. split; [exact Hrun|]. rewrite Htr. cbn [app]. f_equal.
  destruct es as [|ev es]; [done|]. exfalso.
  destruct (Honly ev (or_introl eq_refl)) as [->| ->].
  - pose proof (proj1 Hdb (or_introl eq_refl)) as H. vm_compute in H. discriminate.
  - pose proof (proj1 Hobs (or_introl eq_refl)) as H. vm_compute in H. discriminate.
Defined.

(** ** What the [catch] blocks log *)

Lemma endpoint_cases (e : gmap string string) (k : string) :
  default EmptyString (e !! k) = EmptyString \/
  exists url, e !! k = Some url /\ url <> EmptyString.
Proof.
  destruct (e !! k) as [url|] eqn:Hk; [|by left].
  destruct (decide (url = EmptyString)) as [->|Hne]; [by left | right; eauto].
Qed.

Lemma rethrow_logged_throw hint r e st' :
  rethrow_logged hint r = (Throw e, st') ->
  last (trace st') = Some (Log Err (hint +:+ err_toString e)).
Proof.
  destruct r as [[[]|e0] st0]; cbn; [done|].
  intros [= <- <-]. cbn [trace]. by rewrite last_snoc.
Qed.

Lemma rethrow_logged_normal hint r st' :
  rethrow_logged hint r = (Normal tt, st') -> r = (Normal tt, st').
Proof. destruct r as [[[]|e0] st0]; cbn; [done|discriminate]. Qed.

Lemma keyVault_body_quiet w url cred sp :
  adds (fun ev => is_error_log ev = false) (Combined.keyVault_body w url cred sp).
Proof. unfold Combined.keyVault_body. repeat adds_step. Qed.

Lemma combined_appConfig_body_quiet s :
  adds (fun ev => is_error_log ev = false) (Combined.appConfig_body s).
Proof. unfold Combined.appConfig_body. repeat adds_step. Qed.

Lemma refs_appConfig_body_quiet w cred s :
  adds (fun ev => is_error_log ev = false) (AppConfigRefs.appConfig_body w cred s).
Proof.
  unfold AppConfigRefs.appConfig_body, AppConfigRefs.getSecretFromKeyVault.
  repeat (first [adds_step | case_match]).
Qed.

Lemma quiet_loop {A : Type} (it : AsyncIter A) (body : A -> M unit) st ev1 ev2 st' :
  (forall a, adds (fun ev => is_error_log ev = false) (body a)) ->
  is_error_log ev1 = false -> is_error_log ev2 = false ->
  for_await it body (mkState (env st) (trace st ++ [ev1; ev2])) = (Normal tt, st') ->
  exists es, trace st' = trace st ++ es /\ Forall (fun ev => is_error_log ev = false) es.
Proof.
  intros Hb H1 H2 Hrun.
  destruct (adds_run _ _ _ _ _ (adds_for_await _ it body Hb) Hrun) as (es & Hes & HF).
  exists ([ev1; ev2] ++ es). cbn [trace] in Hes. rewrite Hes, <- app_assoc.
  split; [done|]. apply Forall_app. split; [by repeat constructor | done].
Qed.

(** X6: an error that leaves a population step of [index.ts] or of the
    revision with references has been logged at error level, with the hint
    about permissions and the text of the error, as the last act of the
    step; a step that ends normally logs nothing at error level. *)
Theorem population_failures_are_logged (w : World) (st : State) :
  (forall e st',
     Combined.populateEnvironmentFromKeyVault w st = (Throw e, st') ->
     last (trace st') = Some (Log Err (keyVault_hint +:+ err_toString e))) /\
  (forall e st',
     Combined.populateEnvironmentFromAppConfig w st = (Throw e, st') ->
     last (trace st') = Some (Log Err (appConfig_hint +:+ err_toString e))) /\
  (forall e st',
     AppConfigRefs.populateEnvironmentFromAppConfig w st = (Throw e, st') ->
     last (trace st') = Some (Log Err (appConfig_or_keyVault_hint +:+ err_toString e))) /\
  (forall st',
     Combined.populateEnvironmentFromKeyVault w st = (Normal tt, st') \/
     Combined.populateEnvironmentFromAppConfig w st = (Normal tt, st') \/
     AppConfigRefs.populateEnvironmentFromAppConfig w st = (Normal tt, st') ->
     exists es, trace st' = trace st ++ es /\
                Forall (fun ev => is_error_log ev = false) es).
Proof.
  split; [|split; [|split]].
  - intros e st' H.
    destruct (endpoint_cases (env st) "AZURE_KEY_VAULT_ENDPOINT") as [Hd|(url & Hurl & Hne)].
    + by rewrite populateEnvironmentFromKeyVault_unset in H.
    + rewrite (populateEnvironmentFromKeyVault_set _ _ _ Hurl Hne) in H.
      by apply rethrow_logged_throw in H.
  - intros e st' H.
    destruct (endpoint_cases (env st) "AZURE_APPCONFIGURATION_ENDPOINT")
      as [Hd|(url & Hurl & Hne)].
    + by rewrite combined_populateEnvironmentFromAppConfig_unset in H.
    + rewrite (combined_populateEnvironmentFromAppConfig_set _ _ _ Hurl Hne) in H.
      by apply rethrow_logged_throw in H.
  - intros e st' H.
    destruct (endpoint_cases (env st) "AZURE_APPCONFIGURATION_ENDPOINT")
      as [Hd|(url & Hurl & Hne)].
    + by rewrite refs_populateEnvironmentFromAppConfig_unset in H.
    + rewrite (refs_populateEnvironmentFromAppConfig_set _ _ _ Hurl Hne) in H.
      by apply rethrow_logged_throw in H.
  - intros st' [H|[H|H]].
    + destruct (endpoint_cases (env st) "AZURE_KEY_VAULT_ENDPOINT") as [Hd|(url & Hurl & Hne)].
      * rewrite populateEnvironmentFromKeyVault_unset in H by done. injection H as <-.
        eexists. split; [reflexivity|]. by repeat constructor.
      * rewrite (populateEnvironmentFromKeyVault_set _ _ _ Hurl Hne) in H.
        apply rethrow_logged_normal in H.
        eapply quiet_loop; [| | |exact H]; [apply keyVault_body_quiet|done|done].
    + destruct (endpoint_cases (env st) "AZURE_APPCONFIGURATION_ENDPOINT")
        as [Hd|(url & Hurl & Hne)].
      * rewrite combined_populateEnvironmentFromAppConfig_unset in H by done.
        injection H as <-. eexists. split; [reflexivity|]. by repeat constructor.
      * rewrite (combined_populateEnvironmentFromAppConfig_set _ _ _ Hurl Hne) in H.
        apply rethrow_logged_normal in H.
        eapply quiet_loop; [| | |exact H]; [apply combined_appConfig_body_quiet|done|done].
    + destruct (endpoint_cases (env st) "AZURE_APPCONFIGURATION_ENDPOINT")
        as [Hd|(url & Hurl & Hne)].
      * rewrite refs_populateEnvironmentFromAppConfig_unset in H by done.
        injection H as <-. eexists. split; [reflexivity|]. by repeat constructor.
      * rewrite (refs_populateEnvironmentFromAppConfig_set _ _ _ Hurl Hne) in H.
        apply rethrow_logged_normal in H.
        eapply quiet_loop; [| | |exact H]; [apply refs_appConfig_body_quiet|done|done].
Qed.

Lemma population_failures_are_logged_witness :
  last (trace (snd (AppConfigRefs.populateEnvironmentFromAppConfig sample_world
                      (started [("AZURE_APPCONFIGURATION_ENDPOINT",
                                 "https://broken.azconfig.io")])))) =
  Some (Log Err (appConfig_or_keyVault_hint +:+
                 "Error: AppConfiguration setting API_KEY does not contain a valid Key Vault reference")).
Proof.
  destruct (population_failures_are_logged sample_world
              (started [("AZURE_APPCONFIGURATION_ENDPOINT", "https://broken.azconfig.io")]))
    as (_ & _ & Hrefs & _).
  apply (Hrefs (Error "AppConfiguration setting API_KEY does not contain a valid Key Vault reference")).
  vm_compute. reflexivity.
Defined.

(** ** Variables are only added or overwritten *)


Lemma keeps_ret {A : Type} (a : A) : keeps_variables (ret a).
Proof. by intros st k H. Qed.

Lemma keeps_throw {A : Type} e : keeps_variables (@throw A e).
Proof. by intros st k H. Qed.

Lemma keeps_await {A : Type} (c : Completion A) : keeps_variables (await c).
Proof. by intros st k H. Qed.

Lemma keeps_read_env k : keeps_variables (read_env k).
Proof. by intros st k' H. Qed.

Lemma keeps_emit ev : keeps_variables (emit ev).
Proof. by intros st k H. Qed.

Lemma keeps_assign_env k v : keeps_variables (assign_env k v).
Proof.
  intros st k' H. cbn. destruct (decide (k = k')) as [->|Hne].
  - rewrite lookup_insert_eq. eauto.
  - by rewrite lookup_insert_ne.
Qed.

Lemma keeps_bind {A B : Type} (m : M A) (k : A -> M B) :
  keeps_variables m -> (forall a, keeps_variables (k a)) -> keeps_variables (bind m k).
Proof.
  intros Hm Hk st x H. specialize (Hm st x H). unfold bind.
  destruct (m st) as [[a|e] st1]; cbn [snd] in *; [by apply Hk | done].
Qed.

Lemma keeps_try_catch {A : Type} (m : M A) (h : JSError -> M A) :
  keeps_variables m -> (forall e, keeps_variables (h e)) -> keeps_variables (try_catch m h).
Proof.
  intros Hm Hh st x H. specialize (Hm st x H). unfold try_catch.
  destruct (m st) as [[a|e] st1]; cbn [snd] in *; [done | by apply Hh].
Qed.

Lemma keeps_for_await {A : Type} (it : AsyncIter A) (body : A -> M unit) :
  (forall a, keeps_variables (body a)) -> keeps_variables (for_await it body).
Proof.
  intros Hb. induction it as [|a rest IH|e]; cbn [for_await].
  - apply keeps_ret.
  - apply keeps_bind; [apply Hb | intros _; apply IH].
  - apply keeps_throw.
Qed.

Lemma keeps_for_of {A : Type} (l : list A) (body : A -> M unit) :
  (forall a, keeps_variables (body a)) -> keeps_variables (for_of l body).
Proof.
  intros Hb. induction l as [|a rest IH]; cbn [for_of].
  - apply keeps_ret.
  - apply keeps_bind; [apply Hb | intros _; apply IH].
Qed.

Lemma keeps_dotenv_config w : keeps_variables (dotenv_config w).
Proof.
  intros st k [v Hv]. cbn. exists v. by apply lookup_union_Some_l.
Qed.

Lemma keeps_extractConfig w : keeps_variables (extractConfig w).
Proof. intros st k H. by rewrite extractConfig_run. Qed.


Ltac keeps_step :=
  first
    [ apply keeps_ret | apply keeps_throw | apply keeps_await | apply keeps_read_env
    | apply keeps_assign_env | apply keeps_emit | apply keeps_dotenv_config
    | apply keeps_extractConfig
    | apply keeps_bind; [|intros ?] | apply keeps_try_catch; [|intros ?]
    | apply keeps_for_await; intros ? | apply keeps_for_of; intros ? ].

(** X7: whatever the remote stores answer, and also when start-up is
    aborted by an error, no revision of [getConfig] removes a variable from
    the environment: a variable defined before the call is defined after
    it. *)
Theorem getConfig_never_removes_a_variable (w : World) (st : State) (k : string) :
  is_Some (env st !! k) ->
  is_Some (env (snd (Combined.getConfig w st)) !! k) /\
  is_Some (env (snd (AppConfigRefs.getConfig w st)) !! k) /\
  forall Value (toString : Value -> string) load,
    is_Some (env (snd (Provider.getConfig w Value toString load st)) !! k).
Proof.
  intros H. split; [|split].
  - revert st k H. change (keeps_variables (Combined.getConfig w)).
    unfold Combined.getConfig, Combined.loadLocal,
      Combined.populateEnvironmentFromKeyVault, Combined.populateEnvironmentFromAppConfig,
      Combined.keyVault_body, Combined.appConfig_body,
      logger_info, logger_warn, logger_error.
    repeat (first [keeps_step | case_bool_decide | progress cbn zeta]).
  - revert st k H. change (keeps_variables (AppConfigRefs.getConfig w)).
    unfold AppConfigRefs.getConfig, AppConfigRefs.populateEnvironmentFromAppConfig,
      AppConfigRefs.appConfig_body, AppConfigRefs.getSecretFromKeyVault,
      logger_info, logger_warn, logger_error.
    repeat (first [keeps_step | case_bool_decide | case_match | progress cbn zeta]).
  - intros Value toString load. revert st k H.
    change (keeps_variables (Provider.getConfig w Value toString load)).
    unfold Provider.getConfig, Provider.populateEnvironmentFromAppConfig,
      Provider.appConfig_body, logger_info, logger_warn, logger_error.
    repeat (first [keeps_step | case_bool_decide | progress cbn zeta]).
Qed.

Lemma getConfig_never_removes_a_variable_witness :
  is_Some (env (snd (Combined.getConfig sample_world
                       (started [("NODE_ENV", "production");
                                 ("AZURE_KEY_VAULT_ENDPOINT", "https://locked.vault.azure.net");
                                 ("A_B", "inherited")]))) !! "A_B") /\
  fst (Combined.getConfig sample_world
         (started [("NODE_ENV", "production");
                   ("AZURE_KEY_VAULT_ENDPOINT", "https://locked.vault.azure.net");
                   ("A_B", "inherited")])) = Throw forbidden.
Proof.
  split; [|vm_compute; reflexivity].
  destruct (getConfig_never_removes_a_variable sample_world
              (started [("NODE_ENV", "production");
                        ("AZURE_KEY_VAULT_ENDPOINT", "https://locked.vault.azure.net");
                        ("A_B", "inherited")]) "A_B") as [H _].
  - exists "inherited". reflexivity.
  - exact H.
Defined.

(** ** Where the endpoints come from *)

Lemma combined_getConfig_after_local w st :
  Combined.getConfig w st =
  bind (Combined.populateEnvironmentFromKeyVault w) (fun _ =>
    bind (Combined.populateEnvironmentFromAppConfig w) (fun _ => extractConfig w))
    (snd (Combined.loadLocal w st)).
Proof.
  unfold Combined.getConfig. erewrite bind_normal; last by rewrite loadLocal_run.
  by rewrite loadLocal_run.
Qed.

(** What an earlier step put in the trace stays there. *)
Lemma bind_keeps_in_trace {A B : Type} (m : M A) (k : A -> M B) (P : Event -> Prop) st ev :
  (forall a, adds P (k a)) ->
  In ev (trace (snd (m st))) ->
  In ev (trace (snd (bind m k st))).
Proof.
  intros Hk Hin. unfold bind. destruct (m st) as [[a|e] st1]; cbn [snd] in *; [|done].
  destruct (Hk a st1) as (es & -> & _). apply in_or_app. by left.
Qed.



Lemma keyVault_listing_in_trace w st url :
  env st !! "AZURE_KEY_VAULT_ENDPOINT" = Some url ->
  url <> EmptyString ->
  In (ListPropertiesOfSecrets url)
     (trace (snd (Combined.populateEnvironmentFromKeyVault w st))).
Proof.
  intros Hurl Hne. destruct (keyVault_listing_asked w st url Hurl Hne) as (es & ->).
  apply in_or_app. right. right. by left.
Qed.

Lemma keyVault_complete w st url sps secs :
  env st !! "AZURE_KEY_VAULT_ENDPOINT" = Some url ->
  url <> EmptyString ->
  listPropertiesOfSecrets w url (credential_of (env st)) = yields sps Done ->
  Forall2 (fun sp sec =>
             getSecret w url (credential_of (env st)) (Some (properties_name sp)) = Normal sec)
    sps secs ->
  Combined.populateEnvironmentFromKeyVault w st =
  (Normal tt,
   mkState (apply_writes (env st) (map Combined.secret_write secs))
     ((trace st ++ [Log Info "Populating environment from Azure KeyVault...";
                    ListPropertiesOfSecrets url]) ++
      map (fun sp => GetSecret url (Some (properties_name sp))) sps)).
Proof.
  intros Hurl Hne Hlist Hsecs.
  rewrite (populateEnvironmentFromKeyVault_set _ _ _ Hurl Hne), Hlist.
  by rewrite (keyVault_prefix _ _ _ _ _ _ _ Hsecs).
Qed.




(** X9: in [index.ts] the local file is read before the secret step looks
    for its endpoint.  Outside production mode a vault endpoint that only
    the local file defines makes the secret step list that vault; in
    production mode the file is not read and, with no endpoint in the
    process, no call on a vault is made. *)
Theorem local_file_can_supply_vault_endpoint (w : World) (st : State) (url : string) :
  env st !! "AZURE_KEY_VAULT_ENDPOINT" = None ->
  dotenv_parsed w !! "AZURE_KEY_VAULT_ENDPOINT" = Some url ->
  url <> EmptyString ->
  (env st !! "NODE_ENV" <> Some "production" ->
   In (ListPropertiesOfSecrets url) (trace (snd (Combined.getConfig w st)))) /\
  (env st !! "NODE_ENV" = Some "production" ->
   exists es,
     trace (snd (Combined.getConfig w st)) = trace st ++ es /\
     Forall (fun ev => secret_store_event ev = false) es).
Proof.
  intros Hnone Hfile Hne. rewrite combined_getConfig_after_local, loadLocal_run.
  cbn [snd]. split; intros Hmode.
  - rewrite bool_decide_eq_false_2 by done.
    eapply (bind_keeps_in_trace _ _ (fun _ => True)).
    { intros ?. apply combined_appConfig_then_extract_adds. }
    apply keyVault_listing_in_trace; [|done]. cbn [env].
    by rewrite lookup_union_r.
  - rewrite bool_decide_eq_true_2 by done.
    erewrite bind_normal; last first.
    { apply populateEnvironmentFromKeyVault_unset. by rewrite Hnone. }
    destruct (adds_bind (fun ev => secret_store_event ev = false)
                (Combined.populateEnvironmentFromAppConfig w) (fun _ => extractConfig w))
      with (st := mkState (env st)
                    (trace st ++ [Log Warn "AZURE_KEY_VAULT_ENDPOINT has not been set. Configuration will be loaded from current environment."]))
      as (es & Hes & HF).
    + eapply adds_weaken; [|apply combined_populateEnvironmentFromAppConfig_adds].
      intros ev Hev. by destruct ev.
    + intros ?. by apply adds_extractConfig.
    + eexists (_ :: es). cbn [trace] in Hes. rewrite Hes, <- app_assoc.
      split; [reflexivity|]. by constructor.
Qed.

Lemma local_file_can_supply_vault_endpoint_witness :
  In (ListPropertiesOfSecrets "https://boot.vault.azure.net")
     (trace (snd (Combined.getConfig bootstrap_world (started [("NODE_ENV", "development")])))) /\
  Forall (fun ev => secret_store_event ev = false)
    (trace (snd (Combined.getConfig bootstrap_world (started [("NODE_ENV", "production")])))).
Proof.
  split.
  - apply (local_file_can_supply_vault_endpoint bootstrap_world
             (started [("NODE_ENV", "development")]) "https://boot.vault.azure.net");
      first [ reflexivity | discriminate ].
  - destruct (local_file_can_supply_vault_endpoint bootstrap_world
                (started [("NODE_ENV", "production")]) "https://boot.vault.azure.net")
      as [_ Hprod]; [reflexivity | reflexivity | discriminate |].
    destruct Hprod as (es & Hes & HF); [reflexivity|].
    rewrite Hes. exact HF.
Defined.

(** ** Names and URIs as strings *)

Lemma replace_all_unchanged c d s :
  occurs c s = false -> replace_all c d s = s.
Proof.
  induction s as [|a s IH]; [done|]. cbn. intros H.
  apply orb_false_iff in H as [Ha Hs]. by rewrite Ha, IH.
Qed.

Lemma replace_all_removes c d s :
  c <> d -> occurs c (replace_all c d s) = false.
Proof.
  intros Hcd. induction s as [|a s IH]; [done|]. cbn. rewrite IH, orb_false_r.
  destruct (Ascii.eqb a c) eqn:Ha; [|done].
  apply Ascii.eqb_neq. congruence.
Qed.

Lemma replace_all_back c d s :
  occurs d s = false -> replace_all d c (replace_all c d s) = s.
Proof.
  induction s as [|a s IH]; [done|]. cbn. intros H.
  apply orb_false_iff in H as [Ha Hs]. rewrite IH by done. f_equal.
  destruct (Ascii.eqb a c) eqn:Hac.
  - rewrite Ascii.eqb_refl. by apply Ascii.eqb_eq in Hac.
  - by rewrite Ha.
Qed.

Lemma replace_all_length c d s :
  String.length (replace_all c d s) = String.length s.
Proof. induction s as [|a s IH]; cbn; [done | by rewrite IH]. Qed.

(** X11: Key Vault names hold no underscore (the comment on line 68).  On
    such names the change of dashes into underscores can be undone, so two
    different secret names never end under the same environment key. *)
Theorem secret_name_normalisation_reversible (a b : string) :
  occurs "_" a = false ->
  occurs "_" b = false ->
  replace_all "_" "-" (replace_all "-" "_" a) = a /\
  (replace_all "-" "_" a = replace_all "-" "_" b -> a = b).
Proof.
  intros Ha Hb. split; [by apply replace_all_back|].
  intros H. rewrite <- (replace_all_back "-" "_" a), <- (replace_all_back "-" "_" b) by done.
  by rewrite H.
Qed.

Lemma secret_name_normalisation_reversible_witness :
  replace_all "_" "-" (replace_all "-" "_" "My-Secret-Name") = "My-Secret-Name" /\
  (replace_all "-" "_" "My-Secret-Name" = replace_all "-" "_" "A-B" ->
   "My-Secret-Name" = "A-B").
Proof.
  apply (secret_name_normalisation_reversible "My-Secret-Name" "A-B"); reflexivity.
Defined.

(** X12: the environment key of a secret has the length of the secret
    name and holds no dash; a name without a dash is its own key, and
    changing dashes a second time changes nothing. *)
Theorem normalised_key_shape (name : string) :
  occurs "-" (replace_all "-" "_" name) = false /\
  String.length (replace_all "-" "_" name) = String.length name /\
  replace_all "-" "_" (replace_all "-" "_" name) = replace_all "-" "_" name /\
  (occurs "-" name = false -> replace_all "-" "_" name = name).
Proof.
  split; [by apply replace_all_removes|]. split; [apply replace_all_length|].
  split; [|apply replace_all_unchanged].
  apply replace_all_unchanged. by apply replace_all_removes.
Qed.

Lemma split_nonempty c s : exists p ps, split c s = p :: ps.
Proof.
  induction s as [|a s (p & ps & IH)]; cbn; [eauto|].
  destruct (Ascii.eqb a c); [eauto|]. rewrite IH. eauto.
Qed.

Lemma split_unsplit c s : occurs c s = false -> split c s = [s].
Proof.
  induction s as [|a s IH]; [done|]. cbn. intros H.
  apply orb_false_iff in H as [Ha Hs]. by rewrite Ha, IH.
Qed.

Lemma split_join c s : join c (split c s) = s.
Proof.
  induction s as [|a s IH]; [done|]. cbn [split].
  destruct (split_nonempty c s) as (p & ps & Hs). rewrite Hs in IH |- *.
  destruct (Ascii.eqb a c) eqn:Ha.
  - apply Ascii.eqb_eq in Ha as ->. cbn [join] in *. by rewrite <- IH.
  - destruct ps as [|q ps]; cbn [join] in *; by rewrite <- IH.
Qed.

Lemma split_pieces_clean c s : Forall (fun p => occurs c p = false) (split c s).
Proof.
  induction s as [|a s IH]; [by repeat constructor|]. cbn [split].
  destruct (split_nonempty c s) as (p & ps & Hs). rewrite Hs in IH |- *.
  apply Forall_cons_1 in IH as [Hp Hps].
  destruct (Ascii.eqb a c) eqn:Ha.
  - by repeat constructor.
  - constructor; [|done]. cbn. by rewrite Ha, Hp.
Qed.

(** X13: cutting a URI at slashes loses nothing: there is always a first
    piece, no piece holds a slash, the pieces joined by slashes give the URI
    back, and a URI without a slash is its only piece, so that it has no
    piece 2 and no piece 4. *)
Theorem uri_pieces (uri : string) :
  join "/" (split "/" uri) = uri /\
  (exists p ps, split "/" uri = p :: ps) /\
  Forall (fun p => occurs "/" p = false) (split "/" uri) /\
  (occurs "/" uri = false ->
   split "/" uri = [uri] /\
   split "/" uri !! 2%nat = None /\ split "/" uri !! 4%nat = None).
Proof.
  split; [apply split_join|]. split; [apply split_nonempty|].
  split; [apply split_pieces_clean|].
  intros H. rewrite (split_unsplit _ _ H). done.
Qed.

(** ** References, case by case *)

(** X14: a setting is taken for a Key Vault reference exactly when its
    value is not empty and parses to an object that has a property [uri]
    holding a string, whatever else the object holds and whatever the
    string is; values that do not parse, and parsed numbers, strings,
    booleans, arrays and [null], are never references. *)
Theorem isKeyVaultReference_exactly_objects_with_string_uri (w : World)
    (s : ConfigurationSetting) :
  AppConfigRefs.isKeyVaultReference w s = true <->
  exists v props uri,
    setting_value s = Some v /\ v <> EmptyString /\
    JSON_parse w v = Normal (JObject props) /\
    own_property "uri" props = JString uri.
Proof.
  rewrite isKeyVaultReference_spec. split.
  - intros (v & o & Hv & Hne & Hparse & Ho).
    destruct o as [| |b|f|t|items|props]; try done. cbn in Ho.
    destruct (own_property "uri" props) as [| |b|f|uri|items|props'] eqn:Hu; try done.
    by exists v, props, uri.
  - intros (v & props & uri & Hv & Hne & Hparse & Hu).
    exists v, (JObject props). split; [done|]. split; [done|]. split; [done|].
    cbn. by rewrite Hu.
Qed.

Lemma isKeyVaultReference_exactly_objects_with_string_uri_witness :
  AppConfigRefs.isKeyVaultReference sample_world
    {| setting_key := "API_KEY"; setting_value := Some (reference_text EmptyString) |} = true /\
  AppConfigRefs.isKeyVaultReference sample_world
    {| setting_key := "GREETING"; setting_value := Some "hello" |} = false.
Proof.
  split; [|reflexivity].
  apply (proj2 (isKeyVaultReference_exactly_objects_with_string_uri sample_world
                  {| setting_key := "API_KEY";
                     setting_value := Some (reference_text EmptyString) |})).
  exists (reference_text EmptyString), [("uri", JString EmptyString)], EmptyString.
  split; [reflexivity|]. split; [discriminate|]. split; reflexivity.
Defined.

Lemma reference_turn w cred s st v props uri :
  setting_value s = Some v ->
  v <> EmptyString ->
  JSON_parse w v = Normal (JObject props) ->
  own_property "uri" props = JString uri ->
  uri <> EmptyString ->
  AppConfigRefs.appConfig_body w cred s st =
  match getSecret w ("https://" +:+ template (split "/" uri !! 2%nat)) cred
          (split "/" uri !! 4%nat) with
  | Normal sec =>
      (Normal tt,
       mkState (<[setting_key s := template (secret_value sec)]> (env st))
         (trace st ++ [GetSecret ("https://" +:+ template (split "/" uri !! 2%nat))
                         (split "/" uri !! 4%nat)]))
  | Throw e =>
      (Throw e,
       mkState (env st)
         (trace st ++ [GetSecret ("https://" +:+ template (split "/" uri !! 2%nat))
                         (split "/" uri !! 4%nat)]))
  end.
Proof.
  intros Hv Hne Hparse Huri Hu.
  assert (Href : AppConfigRefs.isKeyVaultReference w s = true).
  { apply isKeyVaultReference_spec. exists v, (JObject props).
    split; [done|]. split; [done|]. split; [done|]. cbn. by rewrite Huri. }
  unfold AppConfigRefs.appConfig_body. rewrite Href, Hv. cbn [nonempty].
  rewrite bool_decide_eq_false_2 by done. cbn [negb andb].
  unfold AppConfigRefs.getSecretFromKeyVault. rewrite Hv.
  rewrite bool_decide_eq_false_2 by done.
  unfold bind at 2, await. rewrite Hparse. cbn [get_uri]. rewrite Huri.
  cbn [truthy]. rewrite bool_decide_eq_false_2 by done. cbn [negb]. cbn zeta.
  unfold bind, emit, ret, assign_env. cbn [env trace].
  by destruct (getSecret w _ cred _).
Qed.

(** X15: the turn of a reference with a non-empty URI makes exactly one
    call on a vault: the vault at https:// followed by piece 2 of the URI cut
    at slashes, for the secret named by piece 4; a missing piece is passed on
    as [undefined] (the vault https://undefined, no secret name) instead of
    being refused.  If the call succeeds its value is assigned under the key
    of the setting, a secret without a value giving the text undefined; if it
    fails the error is raised and the key keeps the value it had. *)
Theorem reference_turn_calls_vault_once (w : World) (cred : DefaultAzureCredential)
    (s : ConfigurationSetting) (st : State) (v : string)
    (props : list (string * JSValue)) (uri : string) :
  setting_value s = Some v ->
  v <> EmptyString ->
  JSON_parse w v = Normal (JObject props) ->
  own_property "uri" props = JString uri ->
  uri <> EmptyString ->
  AppConfigRefs.appConfig_body w cred s st =
  match getSecret w ("https://" +:+ template (split "/" uri !! 2%nat)) cred
          (split "/" uri !! 4%nat) with
  | Normal sec =>
      (Normal tt,
       mkState (<[setting_key s := template (secret_value sec)]> (env st))
         (trace st ++ [GetSecret ("https://" +:+ template (split "/" uri !! 2%nat))
                         (split "/" uri !! 4%nat)]))
  | Throw e =>
      (Throw e,
       mkState (env st)
         (trace st ++ [GetSecret ("https://" +:+ template (split "/" uri !! 2%nat))
                         (split "/" uri !! 4%nat)]))
  end /\
  (occurs "/" uri = false ->
   "https://" +:+ template (split "/" uri !! 2%nat) = "https://undefined" /\
   split "/" uri !! 4%nat = None).
Proof.
  intros Hv Hne Hparse Huri Hu. split; [by apply (reference_turn _ _ _ _ v props)|].
  intros Hslash. by rewrite (split_unsplit _ _ Hslash).
Qed.

Lemma reference_turn_calls_vault_once_witness :
  AppConfigRefs.appConfig_body (references_world ["mysecret"]) (credential_of ∅)
    {| setting_key := "API_KEY"; setting_value := Some (reference_text "mysecret") |}
    (started [("API_KEY", "inherited")]) =
  (Throw (mkJSError "RestError" "SecretNotFound"),
   mkState (env (started [("API_KEY", "inherited")]))
     [GetSecret "https://undefined" None]).
Proof.
  destruct (reference_turn_calls_vault_once (references_world ["mysecret"]) (credential_of ∅)
              {| setting_key := "API_KEY"; setting_value := Some (reference_text "mysecret") |}
              (started [("API_KEY", "inherited")])
              (reference_text "mysecret") [("uri", JString "mysecret")] "mysecret")
    as [Hturn Hpieces].
  - reflexivity.
  - discriminate.
  - reflexivity.
  - reflexivity.
  - discriminate.
  - destruct Hpieces as [Hurl Hname]; [reflexivity|].
    rewrite Hturn, Hurl, Hname. reflexivity.
Defined.



Lemma nonreference_turn w cred s st :
  AppConfigRefs.isKeyVaultReference w s = false ->
  exists e', AppConfigRefs.appConfig_body w cred s st = (Normal tt, mkState e' (trace st)).
Proof.
  intros Href. unfold AppConfigRefs.appConfig_body. rewrite Href, andb_false_r.
  destruct (nonempty (setting_value s)); cbn; eauto. exists (env st). by destruct st.
Qed.

Lemma nonreference_turns w cred ss rest st :
  Forall (fun s => AppConfigRefs.isKeyVaultReference w s = false) ss ->
  exists e',
    for_await (yields ss rest) (AppConfigRefs.appConfig_body w cred) st =
    for_await rest (AppConfigRefs.appConfig_body w cred) (mkState e' (trace st)).
Proof.
  intros H. revert st. induction H as [|s ss Hs _ IH]; intros st.
  - exists (env st). by destruct st.
  - cbn [yields fold_right for_await]. fold (yields ss rest).
    destruct (nonreference_turn w cred s st Hs) as [e1 H1].
    erewrite bind_normal; last exact H1.
    destruct (IH (mkState e1 (trace st))) as [e2 H2]. exists e2. exact H2.
Qed.

(** X17: in the revision with references, a listing none of whose settings
    is a reference makes no call on a vault, whether the listing completes
    or a later page fails. *)
Theorem literal_settings_never_call_the_vault (w : World) (st : State) (url : string)
    (ss : list ConfigurationSetting) (rest : AsyncIter ConfigurationSetting) :
  env st !! "AZURE_APPCONFIGURATION_ENDPOINT" = Some url ->
  url <> EmptyString ->
  listConfigurationSettings w url (credential_of (env st)) = yields ss rest ->
  (rest = Done \/ exists e, rest = Fail e) ->
  Forall (fun s => AppConfigRefs.isKeyVaultReference w s = false) ss ->
  exists es,
    trace (snd (AppConfigRefs.populateEnvironmentFromAppConfig w st)) = trace st ++ es /\
    Forall (fun ev => secret_store_event ev = false) es.
Proof.
  intros Hurl Hne Hlist Hrest Hss.
  rewrite (refs_populateEnvironmentFromAppConfig_set _ _ _ Hurl Hne), Hlist.
  destruct (nonreference_turns w (credential_of (env st)) ss rest
              (mkState (env st)
                 (trace st ++ [Log Info "Populating environment from Azure AppConfiguration...";
                               ListConfigurationSettings url])) Hss) as [e' ->].
  destruct Hrest as [->|[e ->]]; cbn [for_await ret throw rethrow_logged snd trace].
  - eexists. split; [reflexivity|]. by repeat constructor.
  - rewrite <- app_assoc. eexists. split; [reflexivity|]. by repeat constructor.
Qed.

Lemma literal_settings_never_call_the_vault_witness :
  Forall (fun ev => secret_store_event ev = false)
    (trace (snd (AppConfigRefs.populateEnvironmentFromAppConfig sample_world
                   (started [("AZURE_APPCONFIGURATION_ENDPOINT",
                              "https://plain.azconfig.io")])))).
Proof.
  destruct (literal_settings_never_call_the_vault sample_world
              (started [("AZURE_APPCONFIGURATION_ENDPOINT", "https://plain.azconfig.io")])
              "https://plain.azconfig.io"
              [ {| setting_key := "A_B"; setting_value := Some "from-config" |};
                {| setting_key := "EMPTY"; setting_value := Some EmptyString |};
                {| setting_key := "AZURE_COSMOS_CONNECTION_STRING";
                   setting_value := Some "mongodb://cosmos" |} ] Done)
    as (es & Hes & HF).
  - reflexivity.
  - discriminate.
  - reflexivity.
  - by left.
  - by repeat constructor.
  - rewrite Hes. exact HF.
Defined.

(** ** Where the errors of a turn come from *)

Lemma incomplete_reference_turn w cred s st v props :
  setting_value s = Some v ->
  v <> EmptyString ->
  JSON_parse w v = Normal (JObject props) ->
  own_property "uri" props = JString EmptyString ->
  AppConfigRefs.appConfig_body w cred s st =
  (Throw (Error ("AppConfiguration setting " +:+ setting_key s +:+
                 " does not contain a valid Key Vault reference")), st).
Proof.
  intros Hv Hne Hparse Huri.
  assert (Href : AppConfigRefs.isKeyVaultReference w s = true).
  { apply isKeyVaultReference_spec. exists v, (JObject props).
    split; [done|]. split; [done|]. split; [done|]. cbn. by rewrite Huri. }
  unfold AppConfigRefs.appConfig_body. rewrite Href, Hv. cbn [nonempty].
  rewrite bool_decide_eq_false_2 by done. cbn [negb andb].
  erewrite bind_throw; [reflexivity|].
  unfold AppConfigRefs.getSecretFromKeyVault. rewrite Hv.
  rewrite bool_decide_eq_false_2 by done.
  unfold bind at 1, await. rewrite Hparse. cbn [get_uri]. rewrite Huri.
  reflexivity.
Qed.

(** X18: a turn of the settings loop of the revision with references can
    fail in two ways only: with the error about a reference without a URI,
    raised before any call, or with the error the vault raised for the one
    call the turn made.  In both cases the turn has assigned nothing.  The
    other errors [getSecretFromKeyVault] can raise (a setting without a
    value, a value that does not parse, a URI that is no string) are never
    met in the loop. *)
Theorem turn_errors_have_two_sources (w : World) (cred : DefaultAzureCredential)
    (s : ConfigurationSetting) (st : State) (e : JSError) (st' : State) :
  AppConfigRefs.appConfig_body w cred s st = (Throw e, st') ->
  env st' = env st /\
  ((e = Error ("AppConfiguration setting " +:+ setting_key s +:+
               " does not contain a valid Key Vault reference") /\
    trace st' = trace st) \/
   (exists url name,
      getSecret w url cred name = Throw e /\
      trace st' = trace st ++ [GetSecret url name])).
Proof.
  intros Hrun.
  destruct (AppConfigRefs.isKeyVaultReference w s) eqn:Href.
  - apply isKeyVaultReference_spec in Href as (v & o & Hv & Hne & Hparse & Ho).
    destruct o as [| |b|f|t|items|props]; try done. cbn in Ho.
    destruct (own_property "uri" props) as [| |b|f|uri|items|props'] eqn:Hu; try done.
    destruct (decide (uri = EmptyString)) as [->|Huri].
    + rewrite (incomplete_reference_turn _ _ _ _ _ _ Hv Hne Hparse Hu) in Hrun.
      injection Hrun as <- <-. split; [done|]. by left.
    + rewrite (reference_turn _ _ _ _ _ _ _ Hv Hne Hparse Hu Huri) in Hrun.
      destruct (getSecret w _ cred _) as [sec|e0] eqn:Hsec; [done|].
      injection Hrun as <- <-. split; [done|]. right. eauto.
  - destruct (nonreference_turn w cred s st Href) as [e' He']. by rewrite He' in Hrun.
Qed.

Lemma turn_errors_have_two_sources_witness :
  exists url name,
    getSecret sample_world url (credential_of ∅) name = Throw forbidden /\
    trace (snd (AppConfigRefs.appConfig_body sample_world (credential_of ∅)
                  {| setting_key := "API_KEY";
                     setting_value :=
                       Some (reference_text
                               "https://locked.vault.azure.net/secrets/mysecret") |}
                  blank)) = [GetSecret url name].
Proof.
  destruct (turn_errors_have_two_sources sample_world (credential_of ∅)
              {| setting_key := "API_KEY";
                 setting_value :=
                   Some (reference_text "https://locked.vault.azure.net/secrets/mysecret") |}
              blank forbidden
              (snd (AppConfigRefs.appConfig_body sample_world (credential_of ∅)
                      {| setting_key := "API_KEY";
                         setting_value :=
                           Some (reference_text
                                   "https://locked.vault.azure.net/secrets/mysecret") |}
                      blank)))
    as [_ [[Habs _]|(url & name & Hsec & Htr)]].
  - vm_compute. reflexivity.
  - discriminate Habs.
  - exists url, name. split; [exact Hsec | exact Htr].
Defined.

(** ** The calls of the secret step *)

(** X20: with the vault endpoint set, the secret step of [index.ts] asks
    for the listing once and then for every listed secret once, in listing
    order, by the listed name.  It stops at the first retrieval that fails:
    the secrets listed after it are not asked for, and the error is logged
    and raised. *)
Theorem secret_step_call_sequence (w : World) (st : State) (url : string)
    (sps : list SecretProperties) (secs : list KeyVaultSecret) :
  env st !! "AZURE_KEY_VAULT_ENDPOINT" = Some url ->
  url <> EmptyString ->
  Forall2 (fun sp sec =>
             getSecret w url (credential_of (env st)) (Some (properties_name sp)) = Normal sec)
    sps secs ->
  (listPropertiesOfSecrets w url (credential_of (env st)) = yields sps Done ->
   exists st',
     Combined.populateEnvironmentFromKeyVault w st = (Normal tt, st') /\
     trace st' =
       trace st ++ Log Info "Populating environment from Azure KeyVault..." ::
         ListPropertiesOfSecrets url ::
         map (fun sp => GetSecret url (Some (properties_name sp))) sps) /\
  (forall sp rest e,
     listPropertiesOfSecrets w url (credential_of (env st)) = yields sps (Yield sp rest) ->
     getSecret w url (credential_of (env st)) (Some (properties_name sp)) = Throw e ->
     exists st',
       Combined.populateEnvironmentFromKeyVault w st = (Throw e, st') /\
       trace st' =
         trace st ++ Log Info "Populating environment from Azure KeyVault..." ::
           ListPropertiesOfSecrets url ::
           map (fun sp => GetSecret url (Some (properties_name sp))) sps ++
           [GetSecret url (Some (properties_name sp));
            Log Err (keyVault_hint +:+ err_toString e)]).
Proof.
  intros Hurl Hne Hsecs. split.
  - intros Hlist. rewrite (keyVault_complete _ _ _ _ _ Hurl Hne Hlist Hsecs).
    eexists. split; [reflexivity|]. cbn [trace]. by rewrite <- app_assoc.
  - intros sp rest e Hlist Hsp.
    rewrite (populateEnvironmentFromKeyVault_set _ _ _ Hurl Hne), Hlist.
    rewrite (keyVault_prefix _ _ _ _ _ _ _ Hsecs). cbn [for_await env trace].
    erewrite bind_throw; last first.
    { rewrite keyVault_body_performs. unfold Combined.keyVault_writes.
      rewrite Hsp. reflexivity. }
    cbn [rethrow_logged env trace]. eexists. split; [reflexivity|]. cbn [trace].
    rewrite <- !app_assoc. reflexivity.
Qed.

Lemma secret_step_call_sequence_witness :
  trace (snd (Combined.populateEnvironmentFromKeyVault sample_world
                (started [("AZURE_KEY_VAULT_ENDPOINT", "https://kv.vault.azure.net")]))) =
  [Log Info "Populating environment from Azure KeyVault...";
   ListPropertiesOfSecrets "https://kv.vault.azure.net";
   GetSecret "https://kv.vault.azure.net" (Some "A-B");
   GetSecret "https://kv.vault.azure.net" (Some "A_B");
   GetSecret "https://kv.vault.azure.net" (Some "My-Secret-Name")].
Proof.
  destruct (secret_step_call_sequence sample_world
              (started [("AZURE_KEY_VAULT_ENDPOINT", "https://kv.vault.azure.net")])
              "https://kv.vault.azure.net"
              [ {| properties_name := "A-B" |}; {| properties_name := "A_B" |};
                {| properties_name := "My-Secret-Name" |} ]
              [ {| secret_name := "A-B"; secret_value := Some "first" |};
                {| secret_name := "A_B"; secret_value := Some "second" |};
                {| secret_name := "My-Secret-Name"; secret_value := Some "third" |} ])
    as [Hdone _].
  - reflexivity.
  - discriminate.
  - repeat constructor.
  - destruct Hdone as (st' & Hrun & Htr); [reflexivity|].
    rewrite Hrun. exact Htr.
Defined.

(** ** Running the settings step again *)




(** * What depends on the surroundings of the module *)

(** ** The extractor over a package that may fail *)

Lemma extractConfig_from_run pkg st :
  extractConfig_from pkg st =
  match require_config pkg (env st) with
  | Throw e => (Throw e, mkState (env st) (trace st ++ [RequireConfig]))
  | Normal _ =>
      match get_database pkg (env st) with
      | Throw e => (Throw e, mkState (env st) (trace st ++ [RequireConfig]))
      | Normal db =>
          match get_observability pkg (env st) with
          | Throw e => (Throw e, mkState (env st) (trace st ++ [RequireConfig]))
          | Normal obs =>
              (Normal {| observability := obs; database := db |},
               mkState (env st) (trace st ++ RequireConfig :: extract_warnings db obs))
          end
      end
  end.
Proof.
  unfold extractConfig_from, extract_warnings, bind, emit, logger_warn, emit, ret, await.
  cbn [env trace].
  destruct (require_config pkg (env st)) as [[]|e]; [|done].
  destruct (get_database pkg (env st)) as [[dc dn]|e]; [|done].
  destruct (get_observability pkg (env st)) as [[oc on]|e]; [|done].
  cbn [db_connectionString obs_connectionString databaseName roleName].
  unfold database_warning, observability_warning.
  do 2 case_bool_decide; cbn [env trace app];
    rewrite <- ?app_assoc; cbn [app]; by rewrite ?app_nil_r.
Qed.

(** Over the package of a world this is the extractor of the world. *)
Lemma extractConfig_from_package_of w st :
  extractConfig_from (package_of w) st = extractConfig w st.
Proof. by rewrite extractConfig_from_run, extractConfig_run. Qed.

Lemma combined_getConfig_from_package_of w st :
  combined_getConfig_from (package_of w) w st = Combined.getConfig w st.
Proof.
  unfold combined_getConfig_from, Combined.getConfig, bind.
  destruct (Combined.loadLocal w st) as [[[]|e] st1]; [|done].
  destruct (Combined.populateEnvironmentFromKeyVault w st1) as [[[]|e] st2]; [|done].
  destruct (Combined.populateEnvironmentFromAppConfig w st2) as [[[]|e] st3]; [|done].
  apply extractConfig_from_package_of.
Qed.

Lemma combined_getConfig_from_extracts pkg w st0 st2 st3 :
  Combined.populateEnvironmentFromKeyVault w (snd (Combined.loadLocal w st0)) =
    (Normal tt, st2) ->
  Combined.populateEnvironmentFromAppConfig w st2 = (Normal tt, st3) ->
  combined_getConfig_from pkg w st0 = extractConfig_from pkg st3.
Proof.
  intros Hkv Hac. unfold combined_getConfig_from.
  erewrite bind_normal; last by rewrite loadLocal_run.
  rewrite loadLocal_run in Hkv. cbn [snd] in Hkv.
  erewrite bind_normal; last exact Hkv.
  erewrite bind_normal; last exact Hac. done.
Qed.

(** C9, as the code has it.  The extractor raises nothing of its own, and
    catches nothing.  When the [config] package loads and yields both
    sections, whatever the environment holds, it ends normally with the two
    sections as the package gave them and leaves the environment as it was;
    an empty [database.connectionString] is passed on as the empty string,
    and the warning that names [AZURE_COSMOS_CONNECTION_STRING] is logged.
    When it raises, the error is the one [require] or [config.get] raised,
    nothing has been logged, and [getConfig], whose last step it is, raises
    the same error. *)
Theorem extraction_fails_only_with_the_config_package (pkg : ConfigPackage) :
  (forall st db obs,
     require_config pkg (env st) = Normal tt ->
     get_database pkg (env st) = Normal db ->
     get_observability pkg (env st) = Normal obs ->
     exists cfg st',
       extractConfig_from pkg st = (Normal cfg, st') /\
       env st' = env st /\
       database cfg = db /\
       observability cfg = obs /\
       (db_connectionString db = EmptyString ->
        db_connectionString (database cfg) = EmptyString /\
        In (Log Warn database_warning) (trace st') /\
        mentions database_warning "AZURE_COSMOS_CONNECTION_STRING" = true)) /\
  (forall st e st',
     extractConfig_from pkg st = (Throw e, st') ->
     (require_config pkg (env st) = Throw e \/
      get_database pkg (env st) = Throw e \/
      get_observability pkg (env st) = Throw e) /\
     st' = mkState (env st) (trace st ++ [RequireConfig])) /\
  (forall w st0 st2 st3,
     Combined.populateEnvironmentFromKeyVault w (snd (Combined.loadLocal w st0)) =
       (Normal tt, st2) ->
     Combined.populateEnvironmentFromAppConfig w st2 = (Normal tt, st3) ->
     combined_getConfig_from pkg w st0 = extractConfig_from pkg st3).
Proof.
  split; [|split].
  - intros st db obs Hreq Hdb Hobs.
    rewrite extractConfig_from_run, Hreq, Hdb, Hobs.
    eexists _, _. split; [reflexivity|]. cbn [env trace database observability].
    split; [done|]. split; [done|]. split; [done|].
    intros Hempty. split; [exact Hempty|]. split; [|by vm_compute].
    apply in_or_app. right. right. unfold extract_warnings.
    apply in_or_app. left. rewrite Hempty. by left.
  - intros st e st'. rewrite extractConfig_from_run.
    destruct (require_config pkg (env st)) as [[]|e1]; [|intros [= -> <-]; by auto].
    destruct (get_database pkg (env st)) as [db|e1]; [|intros [= -> <-]; by auto].
    destruct (get_observability pkg (env st)) as [obs|e1]; [done|].
    intros [= -> <-]. by auto.
  - intros w st0 st2 st3. apply combined_getConfig_from_extracts.
Qed.

Lemma extraction_fails_only_with_the_config_package_witness :
  exists cfg st',
    extractConfig_from (package_of sample_world) (started [("NODE_ENV", "production")]) =
      (Normal cfg, st') /\
    db_connectionString (database cfg) = EmptyString /\
    In (Log Warn database_warning) (trace st').
Proof.
  destruct (extraction_fails_only_with_the_config_package (package_of sample_world))
    as (Hok & _ & _).
  destruct (Hok (started [("NODE_ENV", "production")])
              {| db_connectionString := EmptyString; databaseName := "Todo" |}
              {| obs_connectionString := EmptyString; roleName := "API" |})
    as (cfg & st' & Hrun & _ & _ & _ & Hwarn).
  - reflexivity.
  - reflexivity.
  - reflexivity.
  - destruct Hwarn as (Hempty & Hlog & _); [reflexivity|].
    exists cfg, st'. split; [exact Hrun|]. split; [exact Hempty | exact Hlog].
Defined.

(** A process whose [config] package finds no file: the population steps
    end normally (no endpoint is set), and the extractor, and with it
    [getConfig], raises the error of [config.get("database")]. *)
Lemma extraction_fails_only_with_the_config_package_counterexample :
  extractConfig_from no_config_files (started [("NODE_ENV", "production")]) =
    (Throw (undefined_property "database"),
     mkState (env (started [("NODE_ENV", "production")])) [RequireConfig]) /\
  fst (Combined.populateEnvironmentFromKeyVault sample_world
         (snd (Combined.loadLocal sample_world (started [("NODE_ENV", "production")])))) =
    Normal tt /\
  fst (combined_getConfig_from no_config_files sample_world
         (started [("NODE_ENV", "production")])) =
    Throw (undefined_property "database") /\
  err_message (undefined_property "database") =
    "Configuration property " +:+ quote +:+ "database" +:+ quote +:+ " is not defined".
Proof.
  split; [vm_compute; reflexivity|]. split; [vm_compute; reflexivity|].
  split; [vm_compute; reflexivity|]. reflexivity.
Qed.
(** ** References without a usable URI *)

(** C8, as the code has it.  Of the references without a usable URI only
    the one whose [uri] is the empty string is refused: its turn of the loop
    raises the error that names the setting, nothing is assigned for it, no
    secret is asked for, and the population step raises that error in its
    turn.  Any other [uri] is cut at the slashes and used as it is: the vault
    at https:// followed by piece 2 is asked for the secret named by piece 4,
    a missing piece being passed on as [undefined] (the vault
    https://undefined and no name for a [uri] without a slash); the answer is
    assigned under the key of the setting, and a failing call raises the
    error of the SDK.  So the error that names the setting is raised, with
    nothing called, exactly for the empty [uri]. *)
Theorem reference_without_usable_uri (w : World) (cred : DefaultAzureCredential)
    (s : ConfigurationSetting) (st : State) (v : string)
    (props : list (string * JSValue)) (uri : string) :
  setting_value s = Some v ->
  v <> EmptyString ->
  JSON_parse w v = Normal (JObject props) ->
  own_property "uri" props = JString uri ->
  let err := Error ("AppConfiguration setting " +:+ setting_key s +:+
                    " does not contain a valid Key Vault reference") in
  AppConfigRefs.isKeyVaultReference w s = true /\
  (uri = EmptyString ->
   AppConfigRefs.appConfig_body w cred s st = (Throw err, st) /\
   AppConfigRefs.setting_writes w cred s = Throw err /\
   (forall st0 url ss wss rest,
      env st0 !! "AZURE_APPCONFIGURATION_ENDPOINT" = Some url ->
      url <> EmptyString ->
      listConfigurationSettings w url (credential_of (env st0)) = yields ss (Yield s rest) ->
      Forall2 (fun s' ws =>
                 AppConfigRefs.setting_writes w (credential_of (env st0)) s' = Normal ws)
        ss wss ->
      exists st',
        AppConfigRefs.populateEnvironmentFromAppConfig w st0 = (Throw err, st') /\
        env st' = apply_writes (env st0) (concat wss))) /\
  (uri <> EmptyString ->
   AppConfigRefs.appConfig_body w cred s st =
   match getSecret w ("https://" +:+ template (split "/" uri !! 2%nat)) cred
           (split "/" uri !! 4%nat) with
   | Normal sec =>
       (Normal tt,
        mkState (<[setting_key s := template (secret_value sec)]> (env st))
          (trace st ++ [GetSecret ("https://" +:+ template (split "/" uri !! 2%nat))
                          (split "/" uri !! 4%nat)]))
   | Throw e =>
       (Throw e,
        mkState (env st)
          (trace st ++ [GetSecret ("https://" +:+ template (split "/" uri !! 2%nat))
                          (split "/" uri !! 4%nat)]))
   end /\
   (occurs "/" uri = false ->
    "https://" +:+ template (split "/" uri !! 2%nat) = "https://undefined" /\
    split "/" uri !! 4%nat = None)) /\
  (AppConfigRefs.appConfig_body w cred s st = (Throw err, st) <-> uri = EmptyString).
Proof.
  intros Hv Hne Hparse Huri err.
  assert (Href : AppConfigRefs.isKeyVaultReference w s = true).
  { apply isKeyVaultReference_spec. exists v, (JObject props).
    split; [done|]. split; [done|]. split; [done|]. cbn. by rewrite Huri. }
  assert (Hbody : uri = EmptyString ->
            forall cred' st', AppConfigRefs.appConfig_body w cred' s st' = (Throw err, st')).
  { intros -> cred' st'. unfold AppConfigRefs.appConfig_body. rewrite Href, Hv.
    cbn [nonempty]. rewrite bool_decide_eq_false_2 by done. cbn [negb andb].
    erewrite bind_throw; [reflexivity|].
    unfold AppConfigRefs.getSecretFromKeyVault. rewrite Hv.
    rewrite bool_decide_eq_false_2 by done.
    unfold bind at 1, await. rewrite Hparse. cbn [get_uri]. rewrite Huri.
    reflexivity. }
  pose proof (reference_turn w cred s st v props uri Hv Hne Hparse Huri) as Hturn.
  split; [exact Href|]. split; [|split].
  - intros Hempty. specialize (Hbody Hempty).
    assert (Hwrites : forall cred', AppConfigRefs.setting_writes w cred' s = Throw err).
    { intros cred'. unfold AppConfigRefs.setting_writes, AppConfigRefs.turn.
      by rewrite Hbody. }
    split; [apply Hbody|]. split; [apply Hwrites|].
    intros st0 url ss wss rest Hurl Hne' Hlist Hwss.
    rewrite (refs_populateEnvironmentFromAppConfig_set _ _ _ Hurl Hne'), Hlist.
    rewrite (refs_appConfig_prefix _ _ _ _ _ _ Hwss). cbn [env trace for_await].
    erewrite bind_throw; last apply Hbody.
    cbn [rethrow_logged env trace]. eexists. split; reflexivity.
  - intros Hu. split; [by apply Hturn|].
    intros Hslash. by rewrite (split_unsplit _ _ Hslash).
  - split; [|by intros Hempty; apply Hbody].
    intros Hrun. destruct (decide (uri = EmptyString)) as [|Hu]; [done|]. exfalso.
    rewrite (Hturn Hu) in Hrun.
    assert (Htr : exists ev, trace st = trace st ++ [ev]).
    { destruct (getSecret w _ cred _); injection Hrun as _ Hst;
        eexists; by rewrite <- Hst at 1. }
    destruct Htr as [ev Htr]. apply (f_equal length) in Htr.
    rewrite length_app in Htr. cbn in Htr. lia.
Qed.

Lemma reference_without_usable_uri_witness :
  AppConfigRefs.isKeyVaultReference sample_world
    {| setting_key := "API_KEY"; setting_value := Some (reference_text EmptyString) |} = true /\
  fst (AppConfigRefs.getConfig sample_world
         (started [("NODE_ENV", "production");
                   ("AZURE_APPCONFIGURATION_ENDPOINT", "https://broken.azconfig.io")])) =
  Throw (Error "AppConfiguration setting API_KEY does not contain a valid Key Vault reference").
Proof.
  pose proof (reference_without_usable_uri sample_world (credential_of ∅)
                {| setting_key := "API_KEY";
                   setting_value := Some (reference_text EmptyString) |}
                blank (reference_text EmptyString)
                [("uri", JString EmptyString)] EmptyString) as H.
  cbv zeta in H. destruct H as (Href & _); first [reflexivity | discriminate | idtac].
  split; [exact Href | vm_compute; reflexivity].
Defined.

(** The value of the setting is the text of an object whose [uri] is
    [not-a-uri].  The setting counts as a reference, and its turn does not
    raise the error that names it: it asks the vault https://undefined for a
    secret without a name, and what it raises is the answer of the SDK. *)
Lemma reference_without_usable_uri_counterexample :
  JSON_parse (references_world ["not-a-uri"]) (reference_text "not-a-uri") =
    Normal (JObject [("uri", JString "not-a-uri")]) /\
  AppConfigRefs.isKeyVaultReference (references_world ["not-a-uri"])
    {| setting_key := "API_KEY"; setting_value := Some (reference_text "not-a-uri") |} = true /\
  split "/" "not-a-uri" = ["not-a-uri"] /\
  AppConfigRefs.appConfig_body (references_world ["not-a-uri"]) (credential_of ∅)
    {| setting_key := "API_KEY"; setting_value := Some (reference_text "not-a-uri") |}
    (started [("API_KEY", "inherited")]) =
  (Throw (mkJSError "RestError" "SecretNotFound"),
   mkState (env (started [("API_KEY", "inherited")]))
     [GetSecret "https://undefined" None]) /\
  mkJSError "RestError" "SecretNotFound" <>
  Error "AppConfiguration setting API_KEY does not contain a valid Key Vault reference".
Proof.
  split; [vm_compute; reflexivity|]. split; [vm_compute; reflexivity|].
  split; [reflexivity|]. split; [vm_compute; reflexivity|]. discriminate.
Qed.
(** ** The runtime mode, and which steps it leaves alone *)

(** The settings step of [index.ts] asks for the listing as soon as its
    endpoint is set. *)
Lemma combined_listing_asked w st1 url :
  env st1 !! "AZURE_APPCONFIGURATION_ENDPOINT" = Some url ->
  url <> EmptyString ->
  exists es,
    trace (snd (Combined.populateEnvironmentFromAppConfig w st1)) =
    trace st1 ++ Log Info "Populating environment from Azure AppConfiguration..." ::
      ListConfigurationSettings url :: es.
Proof.
  intros Hurl Hne. rewrite (combined_populateEnvironmentFromAppConfig_set _ _ _ Hurl Hne).
  destruct (adds_for_await (fun _ => True)
              (listConfigurationSettings w url (credential_of (env st1)))
              Combined.appConfig_body
              ltac:(intros a; eapply adds_weaken; [|apply combined_appConfig_body_quiet]; done)
              (mkState (env st1)
                 (trace st1 ++ [Log Info "Populating environment from Azure AppConfiguration...";
                                ListConfigurationSettings url])))
    as (es & Hes & _).
  destruct (for_await _ _ _) as [[[]|e] st2]; cbn [snd rethrow_logged trace] in *.
  - exists es. rewrite Hes, <- app_assoc. reflexivity.
  - eexists (es ++ [_]). rewrite Hes, <- !app_assoc. reflexivity.
Qed.

(** What [index.ts] does after the local step, seen from the state the
    local step left. *)
Lemma combined_tail_calls w st1 es :
  trace (snd (bind (Combined.populateEnvironmentFromKeyVault w) (fun _ =>
                bind (Combined.populateEnvironmentFromAppConfig w)
                  (fun _ => extractConfig w)) st1)) = trace st1 ++ es ->
  (forall st2 url,
     Combined.populateEnvironmentFromKeyVault w st1 = (Normal tt, st2) ->
     env st2 !! "AZURE_APPCONFIGURATION_ENDPOINT" = Some url ->
     url <> EmptyString ->
     In (ListConfigurationSettings url) es) /\
  (forall e st2,
     Combined.populateEnvironmentFromKeyVault w st1 = (Throw e, st2) ->
     Forall (fun ev => config_store_event ev = false) es).
Proof.
  intros Hes. split.
  - intros st2 url Hkv Hurl Hne.
    destruct (adds_run _ _ _ _ _ (combined_populateEnvironmentFromKeyVault_adds w) Hkv)
      as (es2 & Hes2 & _).
    erewrite bind_normal in Hes; last exact Hkv.
    destruct (combined_appConfig_then_extract_adds w st2) as (es3 & Hes3 & _).
    destruct (combined_listing_asked w st2 url Hurl Hne) as (es1 & Hes1).
    assert (Hin : In (ListConfigurationSettings url) es3).
    { eapply (bind_keeps_event _ _ (fun _ => True) st2); [| exact Hes1 | | exact Hes3].
      - intros ?. by apply adds_extractConfig.
      - right. by left. }
    rewrite Hes3, Hes2, <- app_assoc in Hes. apply app_inv_head in Hes. subst es.
    apply in_or_app. by right.
  - intros e st2 Hkv.
    destruct (adds_run _ _ _ _ _ (combined_populateEnvironmentFromKeyVault_adds w) Hkv)
      as (es2 & Hes2 & HF2).
    erewrite bind_throw in Hes; last exact Hkv. cbn [snd] in Hes.
    rewrite Hes2 in Hes. apply app_inv_head in Hes. subst es.
    eapply Forall_impl; [exact HF2|]. intros ev Hev. by destruct ev.
Qed.

(** C3, as the code has it.  In the revision with references the mode
    picks one path: in production mode the settings step runs (and asks the
    store for its listing when the endpoint is set) and the local file is
    not read; otherwise the local file is read, exactly its missing keys are
    added, and no call on a remote store is made.  In [index.ts] the mode
    decides only whether the local file is read: it is read exactly when the
    mode is not production.  In every mode the secret step asks the vault
    for its listing once the vault endpoint is set, and the settings step,
    provided the secret step has ended normally, asks the store for its
    listing once the endpoint of the store is set; when the secret step
    raises, no call on the config store is made. *)
Theorem runtime_mode_selects_sources (w : World) (st : State) :
  (exists es,
     trace (snd (AppConfigRefs.getConfig w st)) = trace st ++ es /\
     (env st !! "NODE_ENV" = Some "production" ->
      ~ In DotenvConfig es /\
      forall url,
        env st !! "AZURE_APPCONFIGURATION_ENDPOINT" = Some url -> url <> EmptyString ->
        In (ListConfigurationSettings url) es) /\
     (env st !! "NODE_ENV" <> Some "production" ->
      In DotenvConfig es /\
      Forall (fun ev => remote_event ev = false) es /\
      env (snd (AppConfigRefs.getConfig w st)) = env st ∪ dotenv_parsed w)) /\
  (exists es,
     trace (snd (Combined.getConfig w st)) = trace st ++ es /\
     (In DotenvConfig es <-> env st !! "NODE_ENV" <> Some "production") /\
     (forall url,
        env (snd (Combined.loadLocal w st)) !! "AZURE_KEY_VAULT_ENDPOINT" = Some url ->
        url <> EmptyString ->
        In (ListPropertiesOfSecrets url) es) /\
     (forall st2 url,
        Combined.populateEnvironmentFromKeyVault w (snd (Combined.loadLocal w st)) =
          (Normal tt, st2) ->
        env st2 !! "AZURE_APPCONFIGURATION_ENDPOINT" = Some url ->
        url <> EmptyString ->
        In (ListConfigurationSettings url) es) /\
     (forall e st2,
        Combined.populateEnvironmentFromKeyVault w (snd (Combined.loadLocal w st)) =
          (Throw e, st2) ->
        Forall (fun ev => config_store_event ev = false) es)).
Proof.
  split.
  - rewrite refs_getConfig_run. case_bool_decide as Hprod.
    + set (st0 := mkState (env st) (trace st ++ [Log Info (loading_message (env st))])).
      destruct (refs_getConfig_tail_adds w st0) as (es & Hes & HF).
      exists ([Log Info (loading_message (env st))] ++ es).
      split; [by rewrite Hes, app_assoc|]. split; [|done]. intros _. split.
      * rewrite in_app_iff. intros [[Hin|[]]|Hin]; [done|].
        revert Hin. eapply not_in_of_Forall; [|exact HF]. by intros H.
      * intros url Hurl Hne. apply in_or_app. right.
        destruct (refs_listing_asked w st0 url Hurl Hne) as (es1 & Hes1).
        eapply (bind_keeps_event _ _ (fun _ => True) st0); [| exact Hes1 | | exact Hes].
        -- intros ?. by apply adds_extractConfig.
        -- right. by left.
    + rewrite extractConfig_run. cbn [snd env trace].
      rewrite <- app_assoc. cbn [app].
      eexists. split; [reflexivity|]. split; [done|]. intros _. split; [|split; [|done]].
      * right. by left.
      * repeat constructor.
        eapply Forall_impl; [apply extract_warnings_logs|]. intros ev Hev. by destruct ev.
  - destruct (loadLocal_adds w st) as (es0 & Hes0 & HF0).
    pose proof (loadLocal_trace w st) as Hes0'.
    destruct (combined_getConfig_tail_adds w (snd (Combined.loadLocal w st)))
      as (es & Hes & HF).
    destruct (combined_tail_calls w _ _ Hes) as [Hstore Hnone].
    rewrite combined_getConfig_after_local.
    exists ((if bool_decide (env st !! "NODE_ENV" = Some "production")
             then [] else [DotenvConfig]) ++ es).
    split; [by rewrite Hes, Hes0', app_assoc|]. split; [|split; [|split]].
    + rewrite in_app_iff. split.
      * intros [Hin|Hin].
        -- case_bool_decide; [done|]. done.
        -- exfalso. revert Hin. eapply not_in_of_Forall; [|exact HF]. by intros H.
      * intros Hnp. left. rewrite bool_decide_eq_false_2 by done. by left.
    + intros url Hurl Hne. apply in_or_app. right.
      destruct (keyVault_listing_asked w _ url Hurl Hne) as (es1 & Hes1).
      eapply (bind_keeps_event _ _ (fun _ => True)); [| exact Hes1 | | exact Hes].
      * intros ?. apply combined_appConfig_then_extract_adds.
      * right. by left.
    + intros st2 url Hkv Hurl Hne. apply in_or_app. right. by eapply Hstore.
    + intros e st2 Hkv. apply Forall_app. split; [|by eapply Hnone].
      case_bool_decide; by repeat constructor.
Qed.

Lemma runtime_mode_selects_sources_witness :
  (Forall (fun ev => remote_event ev = false)
     (trace (snd (AppConfigRefs.getConfig sample_world
                    (started [("NODE_ENV", "development");
                              ("AZURE_APPCONFIGURATION_ENDPOINT",
                               "https://plain.azconfig.io")])))) /\
   env (snd (AppConfigRefs.getConfig sample_world
               (started [("NODE_ENV", "development");
                         ("AZURE_APPCONFIGURATION_ENDPOINT",
                          "https://plain.azconfig.io")]))) !! "LOCAL_ONLY" =
   Some "from-file") /\
  In (ListConfigurationSettings "https://plain.azconfig.io")
    (trace (snd (Combined.getConfig sample_world
                   (started [("NODE_ENV", "development");
                             ("AZURE_KEY_VAULT_ENDPOINT", "https://kv.vault.azure.net");
                             ("AZURE_APPCONFIGURATION_ENDPOINT",
                              "https://plain.azconfig.io")])))) /\
  Forall (fun ev => config_store_event ev = false)
    (trace (snd (Combined.getConfig sample_world
                   (started [("NODE_ENV", "development");
                             ("AZURE_KEY_VAULT_ENDPOINT", "https://locked.vault.azure.net");
                             ("AZURE_APPCONFIGURATION_ENDPOINT",
                              "https://plain.azconfig.io")])))).
Proof.
  split; [|split].
  - destruct (runtime_mode_selects_sources sample_world
                (started [("NODE_ENV", "development");
                          ("AZURE_APPCONFIGURATION_ENDPOINT", "https://plain.azconfig.io")]))
      as [(es & Htr & _ & Hdev) _].
    destruct Hdev as (_ & HF & Henv); [discriminate|].
    rewrite Htr, Henv. split; [exact HF | reflexivity].
  - destruct (runtime_mode_selects_sources sample_world
                (started [("NODE_ENV", "development");
                          ("AZURE_KEY_VAULT_ENDPOINT", "https://kv.vault.azure.net");
                          ("AZURE_APPCONFIGURATION_ENDPOINT", "https://plain.azconfig.io")]))
      as [_ (es & Htr & _ & _ & Hstore & _)].
    rewrite Htr. apply in_or_app. right.
    apply (Hstore
             (snd (Combined.populateEnvironmentFromKeyVault sample_world
                     (snd (Combined.loadLocal sample_world
                             (started [("NODE_ENV", "development");
                                       ("AZURE_KEY_VAULT_ENDPOINT",
                                        "https://kv.vault.azure.net");
                                       ("AZURE_APPCONFIGURATION_ENDPOINT",
                                        "https://plain.azconfig.io")])))))
             "https://plain.azconfig.io").
    + vm_compute. reflexivity.
    + vm_compute. reflexivity.
    + discriminate.
  - destruct (runtime_mode_selects_sources sample_world
                (started [("NODE_ENV", "development");
                          ("AZURE_KEY_VAULT_ENDPOINT", "https://locked.vault.azure.net");
                          ("AZURE_APPCONFIGURATION_ENDPOINT", "https://plain.azconfig.io")]))
      as [_ (es & Htr & _ & _ & _ & Hnone)].
    rewrite Htr. apply Forall_app. split; [constructor|].
    apply (Hnone forbidden
             (snd (Combined.populateEnvironmentFromKeyVault sample_world
                     (snd (Combined.loadLocal sample_world
                             (started [("NODE_ENV", "development");
                                       ("AZURE_KEY_VAULT_ENDPOINT",
                                        "https://locked.vault.azure.net");
                                       ("AZURE_APPCONFIGURATION_ENDPOINT",
                                        "https://plain.azconfig.io")])))))).
    vm_compute. reflexivity.
Defined.

(** Outside production mode, with a vault endpoint set, [index.ts] reads
    the local file and calls the vault all the same. *)
Lemma runtime_mode_selects_sources_counterexample :
  env (started [("NODE_ENV", "development");
                ("AZURE_KEY_VAULT_ENDPOINT", "https://kv.vault.azure.net")]) !! "NODE_ENV"
    <> Some "production" /\
  In DotenvConfig
    (trace (snd (Combined.getConfig sample_world
                   (started [("NODE_ENV", "development");
                             ("AZURE_KEY_VAULT_ENDPOINT", "https://kv.vault.azure.net")])))) /\
  In (ListPropertiesOfSecrets "https://kv.vault.azure.net")
    (trace (snd (Combined.getConfig sample_world
                   (started [("NODE_ENV", "development");
                             ("AZURE_KEY_VAULT_ENDPOINT", "https://kv.vault.azure.net")])))) /\
  In (GetSecret "https://kv.vault.azure.net" (Some "A-B"))
    (trace (snd (Combined.getConfig sample_world
                   (started [("NODE_ENV", "development");
                             ("AZURE_KEY_VAULT_ENDPOINT", "https://kv.vault.azure.net")])))) /\
  env (snd (Combined.getConfig sample_world
              (started [("NODE_ENV", "development");
                        ("AZURE_KEY_VAULT_ENDPOINT", "https://kv.vault.azure.net")])))
    !! "A_B" = Some "second".
Proof.
  split; [discriminate|].
  split; [vm_compute; tauto|]. split; [vm_compute; tauto|]. split; [vm_compute; tauto|].
  vm_compute. reflexivity.
Qed.

(** ** Settings overlaid on the environment *)

Lemma until_nul_id s : occurs "000" s = false -> until_nul s = s.
Proof.
  induction s as [|a s IH]; [done|]. cbn [occurs until_nul].
  destruct (Ascii.eqb a "000"); [done|]. cbn [orb]. intros H. by rewrite IH.
Qed.

(** On the names and values the environment can hold, an assignment is
    the plain update of the map. *)
Lemma setenv_write e kv :
  env_name_ok kv.1 = true -> env_value_ok kv.2 = true -> setenv e kv = write e kv.
Proof.
  unfold env_name_ok, env_value_ok, setenv, write. intros Hk Hv.
  apply andb_prop in Hk as [Hk Hnul]. apply andb_prop in Hk as [Hne Heq].
  apply negb_true_iff in Hnul, Heq, Hne, Hv. cbn zeta.
  rewrite !until_nul_id by done. by rewrite Hne, Heq.
Qed.

(** The other names are cut at the first NUL, and what is left is
    refused when it is empty or holds [=]. *)
Lemma setenv_refused e k v :
  until_nul k = EmptyString \/ occurs "=" (until_nul k) = true -> setenv e (k, v) = e.
Proof.
  unfold setenv. cbn [fst snd]. intros [Hk | Hk]; rewrite Hk; [done|]. by rewrite orb_true_r.
Qed.

Lemma apply_writes_setenv e ws :
  Forall (fun kv => env_name_ok kv.1 = true /\ env_value_ok kv.2 = true) ws ->
  apply_writes e ws = foldl setenv e ws.
Proof.
  intros H. revert e. induction H as [|kv ws [Hk Hv] _ IH]; intros e; [done|].
  cbn [apply_writes foldl]. rewrite <- IH. by rewrite setenv_write.
Qed.




(** ** The provider revision, for keys the environment can hold *)

(** X1: with the endpoint set and [load] answering a map whose keys and
    values the environment of a process can hold, the provider revision
    assigns every entry of the map under its key, converted to a string and
    in the order of the map, the empty string included, and writes every key
    with its value to the log at info level. *)
Theorem provider_assigns_and_logs_every_setting (Value : Type)
    (toString : Value -> string) (load : string -> Completion (list (string * Value)))
    (st : State) (url : string) (kvs : list (string * Value)) :
  env st !! "AZURE_APPCONFIGURATION_ENDPOINT" = Some url ->
  url <> EmptyString ->
  load url = Normal kvs ->
  Forall (fun kv => env_name_ok kv.1 = true /\ env_value_ok (toString kv.2) = true) kvs ->
  exists st',
    Provider.populateEnvironmentFromAppConfig Value toString load st = (Normal tt, st') /\
    env st' = foldl setenv (env st) (map (Provider.entry_write Value toString) kvs) /\
    trace st' =
      trace st ++ Log Info "Populating environment from Azure AppConfiguration..." ::
        map (Provider.entry_log Value toString) kvs /\
    forall pre k v post,
      kvs = pre ++ (k, v) :: post ->
      Forall (fun kv => kv.1 <> k) post ->
      env st' !! k = Some (toString v) /\
      In (Log Info ("Setting read from app config " +:+ k +:+ "=" +:+ toString v)) (trace st').
Proof.
  intros Hurl Hne Hload Hok.
  rewrite (provider_populate_set _ _ _ _ _ Hurl Hne), Hload, provider_for_of.
  cbn [rethrow_logged env trace]. eexists. split; [reflexivity|]. cbn [env trace].
  split; [|split; [by rewrite <- app_assoc|]].
  - apply apply_writes_setenv. apply Forall_fmap.
    eapply Forall_impl; [exact Hok|]. by intros kv Hkv.
  - intros pre k v post -> Hpost. split.
    + rewrite map_app. cbn [map]. unfold Provider.entry_write at 2. cbn [fst snd].
      apply apply_writes_last. by apply Forall_fmap.
    + apply in_or_app. right. rewrite map_app. apply in_or_app. right. by left.
Qed.

Lemma provider_assigns_and_logs_every_setting_witness :
  exists st',
    Provider.populateEnvironmentFromAppConfig string id sample_load
      (started [("AZURE_APPCONFIGURATION_ENDPOINT", "https://plain.azconfig.io");
                ("EMPTY", "inherited")]) = (Normal tt, st') /\
    env st' !! "EMPTY" = Some EmptyString /\
    In (Log Info "Setting read from app config AZURE_COSMOS_CONNECTION_STRING=mongodb://cosmos")
       (trace st').
Proof.
  destruct (provider_assigns_and_logs_every_setting string id sample_load
              (started [("AZURE_APPCONFIGURATION_ENDPOINT", "https://plain.azconfig.io");
                        ("EMPTY", "inherited")])
              "https://plain.azconfig.io"
              [("A_B", "from-config"); ("EMPTY", EmptyString);
               ("AZURE_COSMOS_CONNECTION_STRING", "mongodb://cosmos")])
    as (st' & Hrun & _ & _ & Hall).
  - reflexivity.
  - discriminate.
  - reflexivity.
  - repeat constructor.
  - exists st'. split; [exact Hrun|]. split.
    + apply (Hall [("A_B", "from-config")] "EMPTY" EmptyString
               [("AZURE_COSMOS_CONNECTION_STRING", "mongodb://cosmos")]);
        [reflexivity | repeat constructor; discriminate].
    + apply (Hall [("A_B", "from-config"); ("EMPTY", EmptyString)]
               "AZURE_COSMOS_CONNECTION_STRING" "mongodb://cosmos" []);
        [reflexivity | constructor].
Defined.
(** ** When no store is asked, whatever the package does *)

Lemma extractConfig_from_state pkg st :
  exists es,
    snd (extractConfig_from pkg st) = mkState (env st) (trace st ++ RequireConfig :: es) /\
    Forall (fun ev => is_log ev = true) es.
Proof.
  rewrite extractConfig_from_run.
  destruct (require_config pkg (env st)) as [[]|e]; [|by exists []].
  destruct (get_database pkg (env st)) as [db|e]; [|by exists []].
  destruct (get_observability pkg (env st)) as [obs|e]; [|by exists []].
  exists (extract_warnings db obs). split; [done|].
  eapply Forall_impl; [apply extract_warnings_logs|]. intros ev Hev. by destruct ev.
Qed.

Lemma refs_getConfig_from_run pkg w st :
  refs_getConfig_from pkg w st =
  if bool_decide (env st !! "NODE_ENV" = Some "production") then
    bind (AppConfigRefs.populateEnvironmentFromAppConfig w) (fun _ => extractConfig_from pkg)
      (mkState (env st) (trace st ++ [Log Info (loading_message (env st))]))
  else
    extractConfig_from pkg
      (mkState (env st ∪ dotenv_parsed w)
         (trace st ++ [Log Info (loading_message (env st)); DotenvConfig])).
Proof.
  unfold refs_getConfig_from, loading_message.
  unfold bind at 1 2 3, read_env, logger_info, emit. cbn [env trace].
  case_bool_decide; [done|].
  unfold bind at 1, dotenv_config. cbn [env trace]. by rewrite <- app_assoc.
Qed.

Lemma provider_getConfig_from_run pkg w Value (toString : Value -> string) load st :
  provider_getConfig_from pkg w Value toString load st =
  if bool_decide (env st !! "NODE_ENV" = Some "production") then
    bind (Provider.populateEnvironmentFromAppConfig Value toString load)
      (fun _ => extractConfig_from pkg)
      (mkState (env st) (trace st ++ [Log Info (loading_message (env st))]))
  else
    extractConfig_from pkg
      (mkState (env st ∪ dotenv_parsed w)
         (trace st ++ [Log Info (loading_message (env st)); DotenvConfig])).
Proof.
  unfold provider_getConfig_from, loading_message.
  unfold bind at 1 2 3, read_env, logger_info, emit. cbn [env trace].
  case_bool_decide; [done|].
  unfold bind at 1, dotenv_config. cbn [env trace]. by rewrite <- app_assoc.
Qed.

(** Over the package of a world these are [getConfig] of the two
    revisions. *)
Lemma refs_getConfig_from_package_of w st :
  refs_getConfig_from (package_of w) w st = AppConfigRefs.getConfig w st.
Proof.
  rewrite refs_getConfig_from_run, refs_getConfig_run.
  case_bool_decide; [|apply extractConfig_from_package_of].
  unfold bind. destruct (AppConfigRefs.populateEnvironmentFromAppConfig w _) as [[[]|e] st1];
    [apply extractConfig_from_package_of | done].
Qed.

Lemma provider_getConfig_from_package_of w Value (toString : Value -> string) load st :
  provider_getConfig_from (package_of w) w Value toString load st =
  Provider.getConfig w Value toString load st.
Proof.
  rewrite provider_getConfig_from_run, provider_getConfig_run.
  case_bool_decide; [|apply extractConfig_from_package_of].
  unfold bind.
  destruct (Provider.populateEnvironmentFromAppConfig Value toString load _) as [[[]|e] st1];
    [apply extractConfig_from_package_of | done].
Qed.

(** X3: outside production mode the provider revision never calls [load]:
    whatever the provider would answer, [getConfig] does the same, and what
    it does is to log the mode, read the local file and run the extractor on
    the environment of the process completed by that file.  This holds
    whether the [config] package fails or not. *)
Theorem provider_local_mode_ignores_provider (pkg : ConfigPackage) (w : World)
    (Value : Type) (toString : Value -> string)
    (load load' : string -> Completion (list (string * Value))) (st : State) :
  env st !! "NODE_ENV" <> Some "production" ->
  provider_getConfig_from pkg w Value toString load st =
    provider_getConfig_from pkg w Value toString load' st /\
  provider_getConfig_from pkg w Value toString load st =
    extractConfig_from pkg
      (mkState (env st ∪ dotenv_parsed w)
         (trace st ++ [Log Info (loading_message (env st)); DotenvConfig])) /\
  env (snd (provider_getConfig_from pkg w Value toString load st)) =
    env st ∪ dotenv_parsed w /\
  Provider.getConfig w Value toString load st = Provider.getConfig w Value toString load' st.
Proof.
  intros Hmode.
  rewrite !provider_getConfig_from_run, !provider_getConfig_run,
    !bool_decide_eq_false_2 by done.
  split; [done|]. split; [done|]. split; [|done].
  destruct (extractConfig_from_state pkg
              (mkState (env st ∪ dotenv_parsed w)
                 (trace st ++ [Log Info (loading_message (env st)); DotenvConfig])))
    as (es & -> & _). done.
Qed.

Lemma provider_local_mode_ignores_provider_witness :
  env (snd (provider_getConfig_from no_config_files sample_world string id sample_load
              (started [("AZURE_APPCONFIGURATION_ENDPOINT", "https://plain.azconfig.io")])))
    !! "A_B" = None /\
  env (snd (provider_getConfig_from no_config_files sample_world string id sample_load
              (started [("AZURE_APPCONFIGURATION_ENDPOINT", "https://plain.azconfig.io")])))
    !! "LOCAL_ONLY" = Some "from-file".
Proof.
  destruct (provider_local_mode_ignores_provider no_config_files sample_world string id
              sample_load sample_load
              (started [("AZURE_APPCONFIGURATION_ENDPOINT", "https://plain.azconfig.io")]))
    as (_ & _ & Henv & _); [discriminate|].
  rewrite Henv. split; reflexivity.
Defined.

(** X10: in [index.ts], when neither endpoint is defined, or defined as the
    empty string, once the local file has been read, both population steps
    end normally with a warning each, [getConfig] goes on to the extractor
    with the environment as the local step left it, and it makes no call on a
    remote store.  This holds whether the [config] package fails or not. *)
Theorem combined_without_endpoints_stays_local (pkg : ConfigPackage) (w : World)
    (st : State) :
  default EmptyString (env (snd (Combined.loadLocal w st)) !! "AZURE_KEY_VAULT_ENDPOINT") =
    EmptyString ->
  default EmptyString
    (env (snd (Combined.loadLocal w st)) !! "AZURE_APPCONFIGURATION_ENDPOINT") = EmptyString ->
  exists st2 st3 es,
    Combined.populateEnvironmentFromKeyVault w (snd (Combined.loadLocal w st)) =
      (Normal tt, st2) /\
    Combined.populateEnvironmentFromAppConfig w st2 = (Normal tt, st3) /\
    env st3 = env (snd (Combined.loadLocal w st)) /\
    combined_getConfig_from pkg w st = extractConfig_from pkg st3 /\
    env (snd (combined_getConfig_from pkg w st)) = env (snd (Combined.loadLocal w st)) /\
    trace (snd (combined_getConfig_from pkg w st)) = trace st ++ es /\
    Forall (fun ev => remote_event ev = false) es /\
    In (Log Warn "AZURE_KEY_VAULT_ENDPOINT has not been set. Configuration will be loaded from current environment.") es /\
    In (Log Warn "AZURE_APPCONFIGURATION_ENDPOINT has not been set. Configuration will be loaded from current environment.") es /\
    In RequireConfig es.
Proof.
  intros Hkv Hac.
  destruct (loadLocal_adds w st) as (es0 & Hes0 & HF0).
  pose proof (fun st2 st3 => combined_getConfig_from_extracts pkg w st st2 st3) as Hget.
  generalize dependent (snd (Combined.loadLocal w st)). intros st1 Hkv Hac Hes0 Hget.
  pose proof (populateEnvironmentFromKeyVault_unset w st1 Hkv) as Hrun2.
  set (st2 := mkState (env st1)
                (trace st1 ++ [Log Warn "AZURE_KEY_VAULT_ENDPOINT has not been set. Configuration will be loaded from current environment."]))
    in Hrun2.
  pose proof (combined_populateEnvironmentFromAppConfig_unset w st2 Hac) as Hrun3.
  rewrite (Hget _ _ Hrun2 Hrun3).
  destruct (extractConfig_from_state pkg
              (mkState (env st2)
                 (trace st2 ++ [Log Warn "AZURE_APPCONFIGURATION_ENDPOINT has not been set. Configuration will be loaded from current environment."])))
    as (es & Hst & HF).
  unfold st2 in *. cbn [env trace] in *.
  eexists _, _, (es0 ++ [_; _] ++ RequireConfig :: es).
  split; [exact Hrun2|]. split; [exact Hrun3|]. split; [done|]. split; [done|].
  rewrite Hst. cbn [env trace]. split; [done|].
  split; [by rewrite Hes0, <- !app_assoc|]. split; [|split; [|split]].
  - apply Forall_app. split.
    + eapply Forall_impl; [exact HF0|]. by intros ev ->.
    + repeat constructor. eapply Forall_impl; [exact HF|]. intros ev Hev. by destruct ev.
  - apply in_or_app. right. by left.
  - apply in_or_app. right. right. by left.
  - apply in_or_app. right. right. right. by left.
Qed.

Lemma combined_without_endpoints_stays_local_witness :
  env (snd (combined_getConfig_from no_config_files sample_world
              (started [("AZURE_KEY_VAULT_ENDPOINT", EmptyString)]))) !! "LOCAL_ONLY" =
    Some "from-file" /\
  Forall (fun ev => remote_event ev = false)
    (trace (snd (combined_getConfig_from no_config_files sample_world
                   (started [("AZURE_KEY_VAULT_ENDPOINT", EmptyString)])))).
Proof.
  destruct (combined_without_endpoints_stays_local no_config_files sample_world
              (started [("AZURE_KEY_VAULT_ENDPOINT", EmptyString)]))
    as (st2 & st3 & es & _ & _ & _ & _ & Henv & Htr & HF & _).
  - reflexivity.
  - reflexivity.
  - rewrite Henv, Htr. split; [reflexivity | exact HF].
Defined.

(** X19: in the two revisions that read the config store only, production
    mode with the endpoint undefined, or defined as the empty string, is no
    error of the population step: it logs the warning and ends normally, and
    [getConfig] goes on to the extractor with the environment exactly as the
    process had it, having read neither the local file nor a remote store.
    This holds whether the [config] package fails or not. *)
Theorem production_without_endpoint_uses_process_environment (pkg : ConfigPackage)
    (w : World) (st : State) :
  env st !! "NODE_ENV" = Some "production" ->
  default EmptyString (env st !! "AZURE_APPCONFIGURATION_ENDPOINT") = EmptyString ->
  let st1 :=
    mkState (env st)
      (trace st ++
         [Log Info (loading_message (env st));
          Log Warn "AZURE_APPCONFIGURATION_ENDPOINT has not been set. Configuration will be loaded from current environment."]) in
  (refs_getConfig_from pkg w st = extractConfig_from pkg st1 /\
   env (snd (refs_getConfig_from pkg w st)) = env st /\
   exists es,
     trace (snd (refs_getConfig_from pkg w st)) = trace st1 ++ RequireConfig :: es /\
     Forall (fun ev => is_log ev = true) es) /\
  (forall Value (toString : Value -> string) load,
     provider_getConfig_from pkg w Value toString load st = extractConfig_from pkg st1 /\
     env (snd (provider_getConfig_from pkg w Value toString load st)) = env st /\
     exists es,
       trace (snd (provider_getConfig_from pkg w Value toString load st)) =
         trace st1 ++ RequireConfig :: es /\
       Forall (fun ev => is_log ev = true) es).
Proof.
  intros Hprod Hd st1.
  destruct (extractConfig_from_state pkg st1) as (es & Hst & HF).
  assert (Hrefs : refs_getConfig_from pkg w st = extractConfig_from pkg st1).
  { rewrite refs_getConfig_from_run, bool_decide_eq_true_2 by done.
    erewrite bind_normal; last by apply refs_populateEnvironmentFromAppConfig_unset.
    unfold st1. cbn [env trace]. by rewrite <- app_assoc. }
  assert (Hprov : forall Value (toString : Value -> string) load,
            provider_getConfig_from pkg w Value toString load st = extractConfig_from pkg st1).
  { intros Value toString load.
    rewrite provider_getConfig_from_run, bool_decide_eq_true_2 by done.
    erewrite bind_normal; last by apply provider_populate_unset.
    unfold st1. cbn [env trace]. by rewrite <- app_assoc. }
  split.
  - rewrite Hrefs, Hst. cbn [env trace]. split; [done|]. split; [done|]. by exists es.
  - intros Value toString load. rewrite Hprov, Hst. cbn [env trace].
    split; [done|]. split; [done|]. by exists es.
Qed.

Lemma production_without_endpoint_uses_process_environment_witness :
  env (snd (refs_getConfig_from no_config_files sample_world
              (started [("NODE_ENV", "production");
                        ("AZURE_APPCONFIGURATION_ENDPOINT", EmptyString)]))) !! "LOCAL_ONLY" =
    None /\
  fst (refs_getConfig_from (package_of sample_world) sample_world
         (started [("NODE_ENV", "production");
                   ("AZURE_APPCONFIGURATION_ENDPOINT", EmptyString)])) =
    fst (extractConfig sample_world
           (started [("NODE_ENV", "production");
                     ("AZURE_APPCONFIGURATION_ENDPOINT", EmptyString)])).
Proof.
  split.
  - pose proof (production_without_endpoint_uses_process_environment no_config_files
                  sample_world
                  (started [("NODE_ENV", "production");
                            ("AZURE_APPCONFIGURATION_ENDPOINT", EmptyString)])) as H.
    cbv zeta in H. destruct H as [(_ & Henv & _) _]; [reflexivity | reflexivity |].
    rewrite Henv. reflexivity.
  - pose proof (production_without_endpoint_uses_process_environment
                  (package_of sample_world) sample_world
                  (started [("NODE_ENV", "production");
                            ("AZURE_APPCONFIGURATION_ENDPOINT", EmptyString)])) as H.
    cbv zeta in H. destruct H as [(Hget & _) _]; [reflexivity | reflexivity |].
    rewrite Hget. vm_compute. reflexivity.
Defined.
